(** * weather-server: the cache-and-dispatch core of [build/weather-server/index.js]

    A shallow embedding of the two request handlers of [WeatherServer]
    (read-resource and call-tool), of the validation predicate
    [isValidForecastArgs] and of the JavaScript built-ins they call, followed
    by the properties of the handlers.

    Conventions of the embedding.
    - A JavaScript string is the list of its UTF-16 code units ([jstring]).
    - A JavaScript number is an IEEE 754 binary64 value, [spec_float] with
      precision 53 and maximal exponent 1024.
    - [Date.now()] and [new Date()] are readings of a clock and the axios call
      is an answer of the upstream API: the three are the fields of the
      environment [env] a handler runs in.
    - A handler is a computation in the monad [M]: it reads and writes the
      cache (the state), may throw, and logs every cache access and every
      upstream call in a trace.  A handler runs from its first line to its
      last without another handler in between (the interleaving of handlers
      at [await] is not modelled). *)

From Stdlib Require Import ZArith List Ascii String Bool Lia.
From Stdlib Require Import SpecFloat.
From stdpp Require Import base option list gmap fin_maps.

Set Warnings "-register-all".
Local Open Scope Z_scope.

(** ** Strings *)

(** A string is a sequence of UTF-16 code units. *)
Abbreviation jstring := (list N).

(** The code units of an ASCII literal. *)
Definition js (s : string) : jstring :=
  List.map N_of_ascii (list_ascii_of_string s).

Fixpoint jstring_eqb (a b : jstring) : bool :=
  match a, b with
  | [], [] => true
  | x :: a', y :: b' => N.eqb x y && jstring_eqb a' b'
  | _, _ => false
  end.

(** The decimal digits of a natural number, most significant first
    (the string of a non-negative integer). *)
Fixpoint digits_fuel (fuel : nat) (n : Z) (acc : jstring) : jstring :=
  match fuel with
  | O => acc
  | S fuel' =>
      let acc' := Z.to_N (48 + n mod 10) :: acc in
      if n <? 10 then acc' else digits_fuel fuel' (n / 10) acc'
  end.

Definition decimal (n : Z) : jstring :=
  digits_fuel (S (Z.to_nat (Z.log2 n))) n [].

(** [decimal] padded with zeros on the left to [w] digits. *)
Definition pad (w : nat) (n : Z) : jstring :=
  let d := decimal n in
  List.repeat 48%N (w - length d) ++ d.

(** ** Numbers *)

Abbreviation number := spec_float.

Definition prec : Z := 53.
Definition emax : Z := 1024.

(** The number denoted by an integer literal. *)
Definition num (z : Z) : number := binary_normalize prec emax z 0 false.

Definition num_mul (a b : number) : number := SFmul prec emax a b.

(** [Math.min] on two arguments: NaN if either is NaN, and -0 below +0. *)
Definition Math_min (a b : number) : number :=
  match a, b with
  | S754_nan, _ | _, S754_nan => S754_nan
  | S754_zero sa, S754_zero sb => S754_zero (sa || sb)
  | _, _ => if SFltb a b then a else b
  end.

(** ToBoolean on a number: +0, -0 and NaN are falsy. *)
Definition num_truthy (a : number) : bool :=
  match a with
  | S754_zero _ | S754_nan => false
  | _ => true
  end.

(** *** Number::toString (radix 10)

    For a finite positive [m * 2^e] the specification asks for integers
    [n], [k], [s] with [k >= 1], [10^(k-1) <= s < 10^k], [s * 10^(n-k)]
    rounding to the number, [k] as small as possible and, among several
    [s], the one closest to the number (the even one on a tie). *)

(** The interval of the reals that round to [m * 2^e], as fractions over
    the common denominator [den]: [(lo, v, hi, den)].  The bounds are the
    midpoints to the neighbouring numbers; the lower neighbour is half as
    far when [m] is the least mantissa of its binade. *)
Definition round_interval (m : positive) (e : Z) : Z * Z * Z * Z :=
  let mz := Z.pos m in
  let up := Z.max e 0 in
  let down := Z.max (- e) 0 in
  let narrow := (mz =? 2 ^ (prec - 1)) && (emin prec emax <? e) in
  let lo := if narrow then 4 * mz - 1 else 4 * mz - 2 in
  (lo * 2 ^ up, 4 * mz * 2 ^ up, (4 * mz + 2) * 2 ^ up, 4 * 2 ^ down).

(** Comparison of [s * 10^q] with the fraction [x / den]. *)
Definition cmp_scaled (s q x den : Z) : comparison :=
  if 0 <=? q then Z.compare (s * 10 ^ q * den) x
  else Z.compare (s * den) (x * 10 ^ (- q)).

(** [floor (v / den / 10^q)]. *)
Definition scaled_floor (v den q : Z) : Z :=
  if 0 <=? q then v / (den * 10 ^ q) else (v * 10 ^ (- q)) / den.

(** The position [n] of the decimal point: [10^(n-1) <= v/den < 10^n]. *)
Definition decimal_point (m : positive) (e : Z) (v den : Z) : Z :=
  let est := ((Z.log2 (Z.pos m) + e) * 1233) / 4096 in
  let up n := if cmp_scaled 1 n v den is Gt then n else n + 1 in
  let dn n := if cmp_scaled 1 (n - 1) v den is Gt then n - 1 else n in
  dn (dn (up (up est))).

Definition in_interval (even : bool) (lo hi den s q : Z) : bool :=
  match cmp_scaled s q lo den, cmp_scaled s q hi den with
  | Gt, Lt => true
  | Eq, Lt | Gt, Eq => even
  | _, _ => false
  end.

(** The candidates with [k] digits: the two neighbours of [v / 10^(n-k)];
    when both lie in the interval the closer one wins, the even one on a
    tie.  A candidate that reaches [10^k] is the power [10^n], written with
    the point one place further. *)
Definition shortest_at (even : bool) (lo v hi den n : Z) (k : Z) : option (Z * Z) :=
  let q := n - k in
  let f := scaled_floor v den q in
  let c := f + 1 in
  let okf := (10 ^ (k - 1) <=? f) && in_interval even lo hi den f q in
  let okc := in_interval even lo hi den c q in
  let norm s := if s =? 10 ^ k then (10 ^ (k - 1), n + 1) else (s, n) in
  match okf, okc with
  | false, false => None
  | true, false => Some (norm f)
  | false, true => Some (norm c)
  | true, true =>
      (* distance to f is v - f*10^q, to c is c*10^q - v: compare 2v with (f+c)*10^q *)
      match cmp_scaled (f + c) q (2 * v) den with
      | Gt => Some (norm f)
      | Lt => Some (norm c)
      | Eq => Some (norm (if Z.even f then f else c))
      end
  end.

Fixpoint shortest_from (fuel : nat) (even : bool) (lo v hi den n k : Z) : Z * Z :=
  match shortest_at even lo v hi den n k with
  | Some r => r
  | None =>
      match fuel with
      | O => (scaled_floor v den (n - k), n)
      | S fuel' => shortest_from fuel' even lo v hi den n (k + 1)
      end
  end.

(** The digits [s] and the position [n] of the point for [m * 2^e]. *)
Definition shortest_digits (m : positive) (e : Z) : jstring * Z :=
  let '(lo, v, hi, den) := round_interval m e in
  let n := decimal_point m e v den in
  let '(s, n') := shortest_from 17 (Z.even (Z.pos m)) lo v hi den n 1 in
  (decimal s, n').

Definition zeros (n : Z) : jstring := List.repeat 48%N (Z.to_nat n).

Definition exponent_part (n : Z) : jstring :=
  js "e" ++ (if 0 <=? n - 1 then js "+" else js "-") ++ decimal (Z.abs (n - 1)).

Definition format_digits (ds : jstring) (n : Z) : jstring :=
  let k := Z.of_nat (length ds) in
  if (k <=? n) && (n <=? 21) then ds ++ zeros (n - k)
  else if (0 <? n) && (n <=? 21) then
    firstn (Z.to_nat n) ds ++ js "." ++ skipn (Z.to_nat n) ds
  else if (-6 <? n) && (n <=? 0) then js "0." ++ zeros (- n) ++ ds
  else if k =? 1 then ds ++ exponent_part n
  else firstn 1 ds ++ js "." ++ skipn 1 ds ++ exponent_part n.

Definition Number_toString (x : number) : jstring :=
  match x with
  | S754_nan => js "NaN"
  | S754_zero _ => js "0"
  | S754_infinity s => (if s then js "-" else []) ++ js "Infinity"
  | S754_finite s m e =>
      let '(ds, n) := shortest_digits m e in
      (if s then js "-" else []) ++ format_digits ds n
  end.

(** ** Values *)

(** The values the handlers see: what [JSON.parse] builds, and [undefined].
    The properties of an object are listed in their enumeration order. *)
Inductive value :=
| VUndefined
| VNull
| VBool (b : bool)
| VNum (n : number)
| VStr (s : jstring)
| VArr (items : list value)
| VObj (props : list (jstring * value)).

Inductive type_tag := TUndefined | TObject | TBoolean | TNumber | TString.

(** The [typeof] operator. *)
Definition typeof (v : value) : type_tag :=
  match v with
  | VUndefined => TUndefined
  | VNull | VArr _ | VObj _ => TObject
  | VBool _ => TBoolean
  | VNum _ => TNumber
  | VStr _ => TString
  end.

Definition type_tag_eqb (a b : type_tag) : bool :=
  match a, b with
  | TUndefined, TUndefined | TObject, TObject | TBoolean, TBoolean
  | TNumber, TNumber | TString, TString => true
  | _, _ => false
  end.

Definition is_undefined (v : value) : bool :=
  match v with VUndefined => true | _ => false end.

Definition is_null (v : value) : bool :=
  match v with VNull => true | _ => false end.

(** [v === undefined || v === null], the test of [?.] and [??]. *)
Definition nullish (v : value) : bool := is_undefined v || is_null v.

(** ToBoolean. *)
Definition truthy (v : value) : bool :=
  match v with
  | VUndefined | VNull => false
  | VBool b => b
  | VNum n => num_truthy n
  | VStr s => negb (jstring_eqb s [])
  | VArr _ | VObj _ => true
  end.

Fixpoint lookup_prop (k : jstring) (props : list (jstring * value)) : value :=
  match props with
  | [] => VUndefined
  | (k', v) :: rest => if jstring_eqb k k' then v else lookup_prop k rest
  end.

Definition is_digit (c : N) : bool := ((48 <=? c) && (c <=? 57))%N.

Fixpoint digits_value (s : jstring) (acc : N) : N :=
  match s with
  | [] => acc
  | c :: s' => digits_value s' (10 * acc + (c - 48))%N
  end.

(** The array index a property key denotes, if it is one: a decimal
    numeral without a leading zero. *)
Definition array_index (k : jstring) : option nat :=
  match k with
  | [] => None
  | c :: rest =>
      if forallb is_digit k
         && implb (c =? 48)%N (match rest with [] => true | _ => false end)
      then Some (N.to_nat (digits_value k 0%N))
      else None
  end.

(** [v[k]] for a property key [k]: [None] is the TypeError of reading a
    property of [undefined] or [null].  Own properties, the elements and the
    length of an array, the code units and the length of a string; none of
    the names the handlers read is defined on a built-in prototype. *)
Definition get (v : value) (k : jstring) : option value :=
  match v with
  | VUndefined | VNull => None
  | VBool _ | VNum _ => Some VUndefined
  | VStr s =>
      Some (match array_index k with
            | Some i => match nth_error s i with Some c => VStr [c] | None => VUndefined end
            | None => if jstring_eqb k (js "length")
                      then VNum (num (Z.of_nat (length s))) else VUndefined
            end)
  | VArr items =>
      Some (match array_index k with
            | Some i => match nth_error items i with Some x => x | None => VUndefined end
            | None => if jstring_eqb k (js "length")
                      then VNum (num (Z.of_nat (length items))) else VUndefined
            end)
  | VObj props => Some (lookup_prop k props)
  end.

Fixpoint join (sep : jstring) (parts : list jstring) : jstring :=
  match parts with
  | [] => []
  | [p] => p
  | p :: rest => p ++ sep ++ join sep rest
  end.

(** The text ToString gives a value, for the values it gives one (see
    [has_text]): a primitive by its type, an array by joining the texts of
    its elements, an object by [Object.prototype.toString]. *)
Fixpoint text_of (v : value) : jstring :=
  match v with
  | VUndefined => js "undefined"
  | VNull => js "null"
  | VBool b => if b then js "true" else js "false"
  | VNum n => Number_toString n
  | VStr s => s
  | VArr items =>
      join (js ",")
        (List.map (fun x => if nullish x then [] else text_of x) items)
  | VObj _ => js "[object Object]"
  end.

(** Whether an object has an own property of the name [k]. *)
Definition has_own (k : jstring) (props : list (jstring * value)) : bool :=
  existsb (fun p => jstring_eqb k (fst p)) props.

(** Whether ToString gives the value a text.  An object is turned into a
    primitive by its method [toString], then by [valueOf].  The properties
    of a value built by [JSON.parse] are data and none is callable: an own
    property [toString] hides the method of [Object.prototype], and
    [valueOf], hidden or not, gives no primitive, so ToString throws a
    TypeError.  An array is joined from the texts of its elements, those
    that are [undefined] or [null] counting for nothing. *)
Fixpoint has_text (v : value) : bool :=
  match v with
  | VArr items => forallb (fun x => nullish x || has_text x) items
  | VObj props => negb (has_own (js "toString") props)
  | _ => true
  end.

(** ToString, as a template literal applies it to a substituted value;
    [None] is the TypeError. *)
Definition ToString (v : value) : option jstring :=
  if has_text v then Some (text_of v) else None.

(** *** JSON.stringify (value, null, 2) *)

Definition hex_digit (d : N) : N := (if d <? 10 then 48 + d else 87 + d)%N.

(** The escape [\uXXXX] of a code unit, in lower-case hexadecimal. *)
Definition unicode_escape (c : N) : jstring :=
  [92; 117; hex_digit (c / 4096 mod 16); hex_digit (c / 256 mod 16);
   hex_digit (c / 16 mod 16); hex_digit (c mod 16)]%N.

Definition is_high_surrogate (c : N) : bool := ((55296 <=? c) && (c <=? 56319))%N.
Definition is_low_surrogate (c : N) : bool := ((56320 <=? c) && (c <=? 57343))%N.

Definition quote_unit (c : N) : jstring :=
  (if c =? 8 then [92; 98]
   else if c =? 9 then [92; 116]
   else if c =? 10 then [92; 110]
   else if c =? 12 then [92; 102]
   else if c =? 13 then [92; 114]
   else if c =? 34 then [92; 34]
   else if c =? 92 then [92; 92]
   else if c <? 32 then unicode_escape c
   else [c])%N.

Fixpoint quote_units (s : jstring) : jstring :=
  match s with
  | [] => []
  | c :: s' =>
      if is_high_surrogate c then
        match s' with
        | d :: s'' =>
            if is_low_surrogate d then c :: d :: quote_units s''
            else unicode_escape c ++ quote_units s'
        | [] => unicode_escape c
        end
      else if is_low_surrogate c then unicode_escape c ++ quote_units s'
      else quote_unit c ++ quote_units s'
  end.

(** QuoteJSONString. *)
Definition quote (s : jstring) : jstring := [34%N] ++ quote_units s ++ [34%N].

Definition gap : jstring := js "  ".
Definition newline : jstring := [10%N].

(** An array or object with its members, one per line. *)
Definition wrap (open close : jstring) (stepback : jstring) (members : list jstring) : jstring :=
  match members with
  | [] => open ++ close
  | _ =>
      let indent := stepback ++ gap in
      open ++ newline ++ indent ++ join (js "," ++ newline ++ indent) members
        ++ newline ++ stepback ++ close
  end.

Definition num_finite (n : number) : bool :=
  match n with
  | S754_zero _ | S754_finite _ _ _ => true
  | _ => false
  end.

(** SerializeJSONProperty at the current indentation; [None] is
    [undefined]. *)
Fixpoint serialize (stepback : jstring) (v : value) : option jstring :=
  match v with
  | VUndefined => None
  | VNull => Some (js "null")
  | VBool b => Some (if b then js "true" else js "false")
  | VNum n => Some (if num_finite n then Number_toString n else js "null")
  | VStr s => Some (quote s)
  | VArr items =>
      Some (wrap (js "[") (js "]") stepback
              (List.map (fun x => match serialize (stepback ++ gap) x with
                                  | Some t => t
                                  | None => js "null"
                                  end) items))
  | VObj props =>
      Some (wrap (js "{") (js "}") stepback
              ((fix members (ps : list (jstring * value)) : list jstring :=
                  match ps with
                  | [] => []
                  | (k, x) :: ps' =>
                      match serialize (stepback ++ gap) x with
                      | Some t => (quote k ++ js ": " ++ t) :: members ps'
                      | None => members ps'
                      end
                  end) props))
  end.

Definition JSON_stringify (v : value) : option jstring := serialize [] v.

(** *** decodeURIComponent *)

Definition hex_value (c : N) : option N :=
  (if (48 <=? c) && (c <=? 57) then Some (c - 48)
   else if (65 <=? c) && (c <=? 70) then Some (c - 55)
   else if (97 <=? c) && (c <=? 102) then Some (c - 87)
   else None)%N.

Definition hex_octet (h1 h2 : N) : option N :=
  match hex_value h1, hex_value h2 with
  | Some a, Some b => Some (16 * a + b)%N
  | _, _ => None
  end.

(** The number of leading 1 bits of an octet (5 stands for five or more). *)
Definition leading_ones (b : N) : nat :=
  if (b <? 128)%N then 0%nat else if (b <? 192)%N then 1%nat
  else if (b <? 224)%N then 2%nat else if (b <? 240)%N then 3%nat
  else if (b <? 248)%N then 4%nat else 5%nat.

Definition is_continuation (b : N) : bool := ((128 <=? b) && (b <? 192))%N.

(** The code point a sequence of octets is the UTF-8 encoding of. *)
Definition utf8_code_point (octets : list N) : option N :=
  let payload := fold_left (fun acc b => acc * 64 + b mod 64)%N (tl octets) in
  let check (lead : N) (least : N) :=
    let cp := payload lead in
    if forallb is_continuation (tl octets)
       && (least <=? cp)%N && (cp <=? 1114111)%N
       && negb ((55296 <=? cp) && (cp <=? 57343))%N
    then Some cp else None in
  match octets with
  | [b0; _] => check (b0 mod 32)%N 128%N
  | [b0; _; _] => check (b0 mod 16)%N 2048%N
  | [b0; _; _; _] => check (b0 mod 8)%N 65536%N
  | _ => None
  end.

(** UTF16EncodeCodePoint. *)
Definition utf16_encode (cp : N) : jstring :=
  (if cp <? 65536 then [cp]
   else [55296 + (cp - 65536) / 1024; 56320 + (cp - 65536) mod 1024])%N.

Definition percent : N := 37.

(** The loop of Decode: [need] is the number of continuation escapes still
    to read and [octets] the octets of the sequence read so far.  [None] is
    the URIError. *)
Fixpoint decode_from (need : nat) (octets : list N) (s : jstring) : option jstring :=
  match s with
  | [] => match need with O => Some [] | S _ => None end
  | c :: s1 =>
      if (c =? percent)%N then
        match s1 with
        | h1 :: h2 :: rest =>
            match hex_octet h1 h2 with
            | None => None
            | Some b =>
                match need with
                | O =>
                    match leading_ones b with
                    | O => option_map (cons b) (decode_from 0 [] rest)
                    | 2%nat => decode_from 1 [b] rest
                    | 3%nat => decode_from 2 [b] rest
                    | 4%nat => decode_from 3 [b] rest
                    | _ => None
                    end
                | 1%nat =>
                    match utf8_code_point (octets ++ [b]) with
                    | Some cp => option_map (app (utf16_encode cp)) (decode_from 0 [] rest)
                    | None => None
                    end
                | S need' => decode_from need' (octets ++ [b]) rest
                end
            end
        | _ => None
        end
      else
        match need with
        | O => option_map (cons c) (decode_from 0 [] s1)
        | S _ => None
        end
  end.

Definition decodeURIComponent (s : jstring) : option jstring := decode_from 0 [] s.

(** *** Regular expressions

    The fragment the server uses: a sequence of pieces, each an assertion
    ([^], [$]), one atom, or a capturing group [(a+)] of a greedy repetition
    of an atom.  No flag is set: [.] excludes the line terminators, [^] and
    [$] match at the two ends of the input only. *)

Inductive atom := Char (c : N) | Dot.

Inductive piece := Bol | Eol | One (a : atom) | PlusGroup (a : atom).

Definition is_line_terminator (c : N) : bool :=
  ((c =? 10) || (c =? 13) || (c =? 8232) || (c =? 8233))%N.

Definition atom_matches (a : atom) (c : N) : bool :=
  match a with
  | Char c' => (c =? c')%N
  | Dot => negb (is_line_terminator c)
  end.

(** [a+] then the continuation [k]: at least one more unit is consumed, as
    many as possible first; [got] is what the group has consumed so far. *)
Fixpoint plus_loop {R} (a : atom) (k : jstring -> jstring -> option R)
    (got : jstring) (s : jstring) : option R :=
  match s with
  | [] => None
  | c :: s' =>
      if atom_matches a c then
        match plus_loop a k (got ++ [c]) s' with
        | Some r => Some r
        | None => k (got ++ [c]) s'
        end
      else None
  end.

(** The match of the pieces at the current position; [start] tells whether
    the position is the beginning of the input.  The result is the list of
    the captures. *)
Fixpoint run (ps : list piece) (start : bool) (caps : list jstring) (s : jstring)
    : option (list jstring) :=
  match ps with
  | [] => Some caps
  | Bol :: ps' => if start then run ps' start caps s else None
  | Eol :: ps' => match s with [] => run ps' start caps s | _ :: _ => None end
  | One a :: ps' =>
      match s with
      | c :: s' => if atom_matches a c then run ps' false caps s' else None
      | [] => None
      end
  | PlusGroup a :: ps' =>
      plus_loop a (fun got rest => run ps' false (caps ++ [got]) rest) [] s
  end.

(** The first position at which the pieces match. *)
Fixpoint search (ps : list piece) (start : bool) (s : jstring) : option (list jstring) :=
  match run ps start [] s with
  | Some caps => Some caps
  | None => match s with [] => None | _ :: s' => search ps false s' end
  end.

(** [s.match(re)] for a regular expression without the [g] flag: the
    captures [match[1], match[2], ...] or [None] for [null]. *)
Definition String_match (s : jstring) (re : list piece) : option (list jstring) :=
  search re true s.

(** The pieces that match the units of [l] one by one. *)
Definition units (l : jstring) : list piece := List.map (fun c => One (Char c)) l.

Definition literal (s : string) : list piece := units (js s).

(** *** Date.prototype.toISOString *)

(** Year, month and day of the day number [d] counted from 1970-01-01. *)
Definition civil_from_days (d : Z) : Z * Z * Z :=
  let z := d + 719468 in
  let era := z / 146097 in
  let doe := z - era * 146097 in
  let yoe := (doe - doe / 1460 + doe / 36524 - doe / 146096) / 365 in
  let doy := doe - (365 * yoe + yoe / 4 - yoe / 100) in
  let mp := (5 * doy + 2) / 153 in
  let day := doy - (153 * mp + 2) / 5 + 1 in
  let month := if mp <? 10 then mp + 3 else mp - 9 in
  let year := yoe + era * 400 + (if month <=? 2 then 1 else 0) in
  (year, month, day).

(** The ISO 8601 text of a time value [t] (milliseconds since the epoch).
    A reading of the clock is always a valid time value, so the RangeError
    of an invalid date does not arise. *)
Definition Date_toISOString (t : Z) : jstring :=
  let '(year, month, day) := civil_from_days (t / 86400000) in
  let ms := t mod 86400000 in
  let year_text :=
    if (0 <=? year) && (year <=? 9999) then pad 4 year
    else (if year <? 0 then js "-" else js "+") ++ pad 6 (Z.abs year) in
  year_text ++ js "-" ++ pad 2 month ++ js "-" ++ pad 2 day ++ js "T"
    ++ pad 2 (ms / 3600000) ++ js ":" ++ pad 2 (ms / 60000 mod 60) ++ js ":"
    ++ pad 2 (ms / 1000 mod 60) ++ js "." ++ pad 3 (ms mod 1000) ++ js "Z".

(** ** Errors, cache, environment *)

(** The error codes of the protocol SDK the handlers use. *)
Inductive ErrorCode := InvalidRequest | MethodNotFound | InvalidParams | InternalError.

(** What a handler can throw.  An axios error carries the body of the
    upstream's response, when there was a response ([error.response.data]),
    and its own message ([error.message]). *)
Inductive exn :=
| McpError (code : ErrorCode) (message : jstring)
| AxiosError (response : option value) (message : jstring)
| TypeError
| URIError
| OtherError (message : jstring).

Inductive result (A : Type) :=
| Return (a : A)
| Throw (e : exn).
Arguments Return {A} a.
Arguments Throw {A} e.

(** An entry of [this.cache]. *)
Record CacheEntry := { data : value; timestamp : Z }.

(** [this.cacheDuration]: 5 minutes in milliseconds. *)
Definition cacheDuration : Z := 5 * 60 * 1000.

(** What a handler does to the cache and to the upstream, in order. *)
Inductive event :=
| CacheGet (key : jstring)
| CacheSet (key : jstring)
| HttpGet (url : jstring) (params : value).

(** The world one run of a handler sees: the clock at [Date.now()], the
    settlement of [this.axiosInstance.get(url, {params})] and the clock at
    [new Date()]. *)
Record env := {
  clock : Z;
  upstream : jstring -> value -> result value;
  clock_later : Z
}.

(** ** The monad of the handlers *)

Definition M (A : Type) : Type :=
  env -> gmap jstring CacheEntry -> result A * gmap jstring CacheEntry * list event.

Definition ret {A} (a : A) : M A := fun _ c => (Return a, c, []).

Definition throw {A} (e : exn) : M A := fun _ c => (Throw e, c, []).

Definition bind {A B} (m : M A) (k : A -> M B) : M B :=
  fun w c =>
    match m w c with
    | (Return a, c1, t1) =>
        let '(r, c2, t2) := k a w c1 in (r, c2, t1 ++ t2)
    | (Throw e, c1, t1) => (Throw e, c1, t1)
    end.

(** [try { m } catch (error) { h error }]. *)
Definition try_catch {A} (m : M A) (h : exn -> M A) : M A :=
  fun w c =>
    match m w c with
    | (Return a, c1, t1) => (Return a, c1, t1)
    | (Throw e, c1, t1) =>
        let '(r, c2, t2) := h e w c1 in (r, c2, t1 ++ t2)
    end.

Notation "x <- m ;; k" := (bind m (fun x => k))
  (at level 100, m at next level, right associativity).
Notation "m ;;; k" := (bind m (fun _ => k))
  (at level 100, right associativity).

(** [this.cache.get(key)]. *)
Definition cache_get (key : jstring) : M (option CacheEntry) :=
  fun _ c => (Return (c !! key), c, [CacheGet key]).

(** [this.cache.set(key, entry)]. *)
Definition cache_set (key : jstring) (entry : CacheEntry) : M unit :=
  fun _ c => (Return tt, <[key := entry]> c, [CacheSet key]).

(** [Date.now()]. *)
Definition Date_now : M Z := fun w c => (Return (clock w), c, []).

(** [new Date()], as its time value. *)
Definition new_Date : M Z := fun w c => (Return (clock_later w), c, []).

(** [(await this.axiosInstance.get(url, { params })).data]. *)
Definition axios_get (url : jstring) (params : value) : M value :=
  fun w c => (upstream w url params, c, [HttpGet url params]).

(** The TypeError of a property read on [undefined] or [null]. *)
Definition or_TypeError {A} (o : option A) : M A :=
  match o with
  | Some x => ret x
  | None => throw TypeError
  end.

(** The property read [v.k]. *)
Definition prop (v : value) (k : string) : M value := or_TypeError (get v (js k)).

(** ** The server *)

(** [isValidForecastArgs], lines 10-13. *)
Definition isValidForecastArgs (args : value) : bool :=
  type_tag_eqb (typeof args) TObject
  && negb (is_null args)
  && match get args (js "city") with
     | Some city => type_tag_eqb (typeof city) TString
     | None => false
     end
  && match get args (js "days") with
     | Some days => is_undefined days || type_tag_eqb (typeof days) TNumber
     | None => false
     end.

(** The content item of a read-resource response. *)
Record ResourceContents := {
  uri : jstring;
  mimeType : jstring;
  text : option jstring
}.

(** The response of the call-tool handler: [content] holds one item of
    type text; [isError] is [true] when the property is present. *)
Record ToolResult := {
  content_text : option jstring;
  isError : bool
}.

(** The pattern of line 74: [/^weather:\/\/(.+)\/current$/]. *)
Definition uri_pattern : list piece :=
  Bol :: literal "weather://" ++ [PlusGroup Dot] ++ literal "/current" ++ [Eol].

(** The guard [cached && now - cached.timestamp < this.cacheDuration] of
    lines 82 and 165: the entry when it is there and fresh. *)
Definition fresh_entry (cached : option CacheEntry) (now : Z) : option CacheEntry :=
  match cached with
  | Some e => if now - timestamp e <? cacheDuration then Some e else None
  | None => None
  end.

(** [error.response?.data.message ?? error.message] for an axios error:
    the optional chain stops at a missing response only, so the read of
    [message] on a body that is [undefined] or [null] is a TypeError
    ([None]). *)
Definition error_detail (response : option value) (message : jstring) : option value :=
  match response with
  | None => Some (VStr message)
  | Some body =>
      match get body (js "message") with
      | Some m => Some (if nullish m then VStr message else m)
      | None => None
      end
  end.

(** The template literal of lines 117 and 198; [None] is the TypeError of
    a detail that ToString has no text for. *)
Definition api_error_text (detail : value) : option jstring :=
  option_map (app (js "Weather API error: ")) (ToString detail).

(** The text the catch blocks of lines 115-120 and 192-205 build from an
    axios error, the detail first and the template literal around it then;
    [None] when one of the two throws a TypeError. *)
Definition error_text (response : option value) (message : jstring) : option jstring :=
  match error_detail response message with
  | Some detail => api_error_text detail
  | None => None
  end.

(** The object literal of lines 97-103. *)
Definition weatherData (response_data : value) : M value :=
  main <- prop response_data "main" ;;
  temp <- prop main "temp" ;;
  weather <- prop response_data "weather" ;;
  first <- prop weather "0" ;;
  description <- prop first "description" ;;
  main' <- prop response_data "main" ;;
  humidity <- prop main' "humidity" ;;
  wind <- prop response_data "wind" ;;
  speed <- prop wind "speed" ;;
  date <- new_Date ;;
  ret (VObj [(js "temperature", temp);
             (js "conditions", description);
             (js "humidity", humidity);
             (js "wind_speed", speed);
             (js "timestamp", VStr (Date_toISOString date))]).

(** The [try]/[catch] of lines 93-120; [axios.isAxiosError(error)] holds of
    the errors [AxiosError] and of no other. *)
Definition fetch_current (request_uri city cacheKey : jstring) (now : Z) : M ResourceContents :=
  try_catch
    (response_data <- axios_get (js "weather") (VObj [(js "q", VStr city)]) ;;
     snapshot <- weatherData response_data ;;
     cache_set cacheKey {| data := snapshot; timestamp := now |} ;;;
     ret {| uri := request_uri;
            mimeType := js "application/json";
            text := JSON_stringify snapshot |})
    (fun error =>
       match error with
       | AxiosError response message =>
           detail <- or_TypeError (error_detail response message) ;;
           text <- or_TypeError (api_error_text detail) ;;
           throw (McpError InternalError text)
       | _ => throw error
       end).

(** The read-resource handler, lines 73-121.  [match[1]] is the first
    capture; were it missing, [decodeURIComponent] would read [undefined] as
    the string of that name (a match of [uri_pattern] has its capture, lemma
    [uri_pattern_spec]). *)
Definition read_resource (request_uri : jstring) : M ResourceContents :=
  match String_match request_uri uri_pattern with
  | None =>
      throw (McpError InvalidRequest (js "Invalid URI format: " ++ request_uri))
  | Some captures =>
      match decodeURIComponent (nth 0 captures (js "undefined")) with
      | None => throw URIError
      | Some city =>
          let cacheKey := js "current_weather_" ++ city in
          cached <- cache_get cacheKey ;;
          now <- Date_now ;;
          match fresh_entry cached now with
          | Some hit =>
              ret {| uri := request_uri;
                     mimeType := js "application/json";
                     text := JSON_stringify (data hit) |}
          | None => fetch_current request_uri city cacheKey now
          end
      end
  end.

(** [x || d]. *)
Definition or_else (x d : value) : value := if truthy x then x else d.

(** ToNumber on the values without a string inside; the argument of
    [Math.min] on line 161 is a number whenever [isValidForecastArgs] holds
    (lemma [valid_days_number]), so the other values are not reached. *)
Definition ToNumber (v : value) : number :=
  match v with
  | VNum n => n
  | VNull => S754_zero false
  | VBool b => if b then num 1 else S754_zero false
  | VUndefined | VStr _ | VArr _ | VObj _ => S754_nan
  end.

(** [Math.min(days || 3, 5)], line 161. *)
Definition effective_days (days : value) : number :=
  Math_min (ToNumber (or_else days (VNum (num 3)))) (num 5).

(** The cache key of line 162.  The city of a call that gets here has
    passed [isValidForecastArgs]: it is a string, and its text is itself. *)
Definition forecast_key (city : value) (days : number) : jstring :=
  js "forecast_" ++ text_of city ++ js "_" ++ Number_toString days.

(** The parameters of the upstream forecast request, lines 177-180. *)
Definition forecast_params (city : value) (days : number) : value :=
  VObj [(js "q", city); (js "cnt", VNum (num_mul days (num 8)))].

(** The [try]/[catch] of lines 175-205. *)
Definition fetch_forecast (city : value) (days : number) (cacheKey : jstring) (now : Z)
    : M ToolResult :=
  try_catch
    (response_data <- axios_get (js "forecast") (forecast_params city days) ;;
     list <- prop response_data "list" ;;
     cache_set cacheKey {| data := list; timestamp := now |} ;;;
     ret {| content_text := JSON_stringify list; isError := false |})
    (fun error =>
       match error with
       | AxiosError response message =>
           detail <- or_TypeError (error_detail response message) ;;
           text <- or_TypeError (api_error_text detail) ;;
           ret {| content_text := Some text; isError := true |}
       | _ => throw error
       end).

(** The call-tool handler, lines 153-206. *)
Definition call_tool (name : jstring) (arguments : value) : M ToolResult :=
  if negb (jstring_eqb name (js "get_forecast")) then
    throw (McpError MethodNotFound (js "Unknown tool: " ++ name))
  else if negb (isValidForecastArgs arguments) then
    throw (McpError InvalidParams (js "Invalid forecast arguments"))
  else
    city <- prop arguments "city" ;;
    days_arg <- prop arguments "days" ;;
    let days := effective_days days_arg in
    let cacheKey := forecast_key city days in
    cached <- cache_get cacheKey ;;
    now <- Date_now ;;
    match fresh_entry cached now with
    | Some hit =>
        ret {| content_text := JSON_stringify (data hit); isError := false |}
    | None => fetch_forecast city days cacheKey now
    end.

(** ** The server as a whole *)

Inductive request :=
| ReadResource (request_uri : jstring)
| CallTool (name : jstring) (arguments : value).

Inductive response :=
| ResourceResponse (contents : ResourceContents)
| ToolResponse (r : ToolResult).

(** The dispatch of a request to its handler. *)
Definition handle (rq : request) : M response :=
  match rq with
  | ReadResource request_uri =>
      r <- read_resource request_uri ;; ret (ResourceResponse r)
  | CallTool name arguments =>
      r <- call_tool name arguments ;; ret (ToolResponse r)
  end.

Definition cache_after {A} (x : result A * gmap jstring CacheEntry * list event)
    : gmap jstring CacheEntry := snd (fst x).

Definition trace_of {A} (x : result A * gmap jstring CacheEntry * list event)
    : list event := snd x.

Definition result_of {A} (x : result A * gmap jstring CacheEntry * list event)
    : result A := fst (fst x).

(** The cache after a sequence of requests, each in its own environment,
    handled one after the other. *)
Fixpoint serve (steps : list (request * env)) (c : gmap jstring CacheEntry)
    : gmap jstring CacheEntry :=
  match steps with
  | [] => c
  | (rq, w) :: rest => serve rest (cache_after (handle rq w c))
  end.

(** ** Reading the specification *)

(** The detail an upstream failure is to be reported with: the [message]
    of the body of the error response when the body has one, and the
    message of the axios error itself when there was no response or the
    body has no [message]. *)
Inductive reported_detail (message : jstring) : option value -> value -> Prop :=
| no_response : reported_detail message None (VStr message)
| no_message (body m : value) :
    get body (js "message") = Some m -> nullish m = true ->
    reported_detail message (Some body) (VStr message)
| upstream_message (body m : value) :
    get body (js "message") = Some m -> nullish m = false ->
    reported_detail message (Some body) m.

(** An error response no text can be made of: its body is [null] or
    [undefined], so that nothing can be read from it, or the [message] of
    its body is a value ToString throws on. *)
Definition unreportable (body : value) : Prop :=
  nullish body = true
  \/ exists m, get body (js "message") = Some m /\ ToString m = None.

(** The value at the end of a chain of property reads, [v.k1.k2...]. *)
Definition path (v : value) (ks : list string) : option value :=
  fold_left (fun acc k => match acc with Some x => get x (js k) | None => None end)
    ks (Some v).

(** Whether an event is a call of the upstream API. *)
Definition is_upstream_call (e : event) : bool :=
  match e with HttpGet _ _ => true | _ => false end.

(** The number of upstream calls in a trace. *)
Definition upstream_calls (t : list event) : nat :=
  length (List.filter is_upstream_call t).

(** A string [.+] can match: no unit of it is a line terminator. *)
Definition no_line_terminator (X : jstring) : bool :=
  forallb (fun c => negb (is_line_terminator c)) X.

(** "A non-null structured value": an object or an array. *)
Definition structured (v : value) : Prop :=
  match v with
  | VArr _ | VObj _ => True
  | _ => False
  end.

(** The snapshot lines 97-103 build from the upstream's answer and the
    reading [t] of the clock, as a function: [None] when one of the
    property reads is on [undefined] or [null]. *)
Definition snapshot (payload : value) (t : Z) : option value :=
  match path payload ["main"; "temp"]%string,
        path payload ["weather"; "0"; "description"]%string,
        path payload ["main"; "humidity"]%string,
        path payload ["wind"; "speed"]%string with
  | Some temperature, Some conditions, Some humidity, Some wind_speed =>
      Some (VObj [(js "temperature", temperature);
                  (js "conditions", conditions);
                  (js "humidity", humidity);
                  (js "wind_speed", wind_speed);
                  (js "timestamp", VStr (Date_toISOString t))])
  | _, _, _, _ => None
  end.

(** The response of a successful read. *)
Definition json_contents (request_uri : jstring) (v : value) : ResourceContents :=
  {| uri := request_uri; mimeType := js "application/json"; text := JSON_stringify v |}.

(** The response of the tool handler to a successful lookup. *)
Definition json_text (v : value) : ToolResult :=
  {| content_text := JSON_stringify v; isError := false |}.

(** An environment for the examples: the clock reads [now], the upstream
    settles every call with [answer]. *)
Definition world (now : Z) (answer : result value) : env :=
  {| clock := now; upstream := fun _ _ => answer; clock_later := now + 250 |}.

(** A current-conditions answer of the upstream, for the examples. *)
Definition sample_conditions : value :=
  VObj [(js "weather", VArr [VObj [(js "description", VStr (js "light rain"))]]);
        (js "main", VObj [(js "temp", VNum (num 15)); (js "humidity", VNum (num 81))]);
        (js "wind", VObj [(js "speed", VNum (num 4))]);
        (js "dt", VNum (num 1700000000))].

(** A forecast answer of the upstream, for the examples. *)
Definition sample_forecast : value :=
  VObj [(js "cnt", VNum (num 1));
        (js "list", VArr [VObj [(js "dt", VNum (num 1700000000))]])].

(** The arguments [{ city, days }] of a tool call, for the examples. *)
Definition forecast_args (city : string) (days : Z) : value :=
  VObj [(js "city", VStr (js city)); (js "days", VNum (num days))].

(** The shape [ForecastArgs] as the specification's data model words it:
    [{ city: string (required), days: number (optional, 1-5) }]. *)
Definition ForecastArgs_shape (args : value) : bool :=
  match args with
  | VObj props =>
      match lookup_prop (js "city") props, lookup_prop (js "days") props with
      | VStr _, VUndefined => true
      | VStr _, VNum d => SFleb (num 1) d && SFleb d (num 5)
      | _, _ => false
      end
  | _ => false
  end.

(** The cache key a request works on, if the request gets as far as the
    cache: the key of line 79 or of line 162. *)
Definition request_key (rq : request) : option jstring :=
  match rq with
  | ReadResource request_uri =>
      match String_match request_uri uri_pattern with
      | Some captures =>
          option_map (app (js "current_weather_"))
            (decodeURIComponent (nth 0 captures (js "undefined")))
      | None => None
      end
  | CallTool name arguments =>
      if jstring_eqb name (js "get_forecast") && isValidForecastArgs arguments then
        match get arguments (js "city"), get arguments (js "days") with
        | Some city, Some days_arg => Some (forecast_key city (effective_days days_arg))
        | _, _ => None
        end
      else None
  end.

(** An entry that holds what a successful upstream call of the environment
    [w] returned: the snapshot of a current-conditions answer under a
    [current_weather_] key, or the list of a forecast answer under a
    [forecast_] key, stamped with the time of the request. *)
Definition fetched_entry (w : env) (key : jstring) (entry : CacheEntry) : Prop :=
  timestamp entry = clock w
  /\ ((exists city payload,
          key = js "current_weather_" ++ city
          /\ upstream w (js "weather") (VObj [(js "q", VStr city)]) = Return payload
          /\ snapshot payload (clock_later w) = Some (data entry))
      \/ (exists city days payload,
            key = forecast_key city days
            /\ upstream w (js "forecast") (forecast_params city days) = Return payload
            /\ get payload (js "list") = Some (data entry))).

(** Every upstream call of the trace [t] was answered by a failure. *)
Definition calls_fail (w : env) (t : list event) : Prop :=
  forall url params, In (HttpGet url params) t -> exists e, upstream w url params = Throw e.

(** ** The listing handlers *)

(** An entry of the answer to list-resources, lines 52-58. *)
Record Resource := {
  resource_uri : jstring;
  resource_name : jstring;
  resource_mimeType : jstring;
  resource_description : jstring
}.

(** An entry of the answer to list-resource-templates, lines 64-69. *)
Record ResourceTemplate := {
  uriTemplate : jstring;
  template_name : jstring;
  template_mimeType : jstring;
  template_description : jstring
}.

(** An entry of the answer to list-tools, lines 130-150. *)
Record Tool := {
  tool_name : jstring;
  tool_description : jstring;
  inputSchema : value
}.

(** The list-resources handler, lines 49-60. *)
Definition list_resources : M (list Resource) :=
  ret [ {| resource_uri := js "weather://San Francisco/current";
           resource_name := js "Current weather in San Francisco";
           resource_mimeType := js "application/json";
           resource_description :=
             js "Real-time weather data for San Francisco including temperature, conditions, humidity, and wind speed" |} ].

(** The list-resource-templates handler, lines 62-71. *)
Definition list_resource_templates : M (list ResourceTemplate) :=
  ret [ {| uriTemplate := js "weather://{city}/current";
           template_name := js "Current weather for a given city";
           template_mimeType := js "application/json";
           template_description := js "Real-time weather data for a specified city" |} ].

(** The list-tools handler, lines 128-152. *)
Definition list_tools : M (list Tool) :=
  ret [ {| tool_name := js "get_forecast";
           tool_description := js "Get weather forecast for a city";
           inputSchema :=
             VObj [(js "type", VStr (js "object"));
                   (js "properties",
                    VObj [(js "city",
                           VObj [(js "type", VStr (js "string"));
                                 (js "description", VStr (js "City name"))]);
                          (js "days",
                           VObj [(js "type", VStr (js "number"));
                                 (js "description", VStr (js "Number of days (1-5)"));
                                 (js "minimum", VNum (num 1));
                                 (js "maximum", VNum (num 5))])]);
                   (js "required", VArr [VStr (js "city")])] |} ].

(** The URI a template stands for when [segment] is put in the place of
    its first variable [{...}]; a template without a variable is left as it
    is. *)
Fixpoint skip_variable (t : jstring) : jstring :=
  match t with
  | [] => []
  | c :: t' => if (c =? 125)%N then t' else skip_variable t'
  end.

Fixpoint fill_template (t segment : jstring) : jstring :=
  match t with
  | [] => []
  | c :: t' => if (c =? 123)%N then segment ++ skip_variable t'
               else c :: fill_template t' segment
  end.

(** The upper-case hexadecimal digit of a number below 16. *)
Definition hex_upper (d : N) : N := (if d <? 10 then 48 + d else 55 + d)%N.

(** The escape [%XX] of a code unit below 256. *)
Definition percent_escape (c : N) : jstring :=
  [percent; hex_upper (c / 16)%N; hex_upper (c mod 16)%N].

(** A string with every one of its units escaped. *)
Definition escape_all (s : jstring) : jstring := flat_map percent_escape s.

(** The property keys of a snapshot, in order. *)
Definition snapshot_keys : list jstring :=
  [js "temperature"; js "conditions"; js "humidity"; js "wind_speed"; js "timestamp"].

(** The keys of an object, in order ([Object.keys]); no key for the other
    values met here. *)
Definition keys_of (v : value) : list jstring :=
  match v with
  | VObj props => List.map fst props
  | _ => []
  end.

(** The underscore, the separator of the forecast key. *)
Definition underscore : N := 95.

(** A string without an underscore. *)
Definition plain (s : jstring) : Prop := ~ In underscore s.

(** A chain of property reads that ends on [undefined] or [null], or does
    not get to its end. *)
Definition nullish_at (v : value) (ks : list string) : Prop :=
  match path v ks with
  | Some x => nullish x = true
  | None => True
  end.

(** An answer of the upstream in which one of the objects the snapshot is
    read from is missing: the answer itself, [main], [weather],
    [weather[0]] or [wind]. *)
Definition unreadable (payload : value) : Prop :=
  nullish_at payload []
  \/ nullish_at payload ["main"]%string
  \/ nullish_at payload ["weather"]%string
  \/ nullish_at payload ["weather"; "0"]%string
  \/ nullish_at payload ["wind"]%string.


(** * Properties *)

(** ** The built-ins on examples *)

Example Number_toString_integers :
  Number_toString (num 24) = js "24" /\ Number_toString (num (-16)) = js "-16"
  /\ Number_toString (S754_zero true) = js "0".
Proof. repeat split. Qed.

Example Number_toString_fractions :
  Number_toString (SFdiv prec emax (num 153) (num 10)) = js "15.3"
  /\ Number_toString (SFdiv prec emax (num 1) (num 3)) = js "0.3333333333333333"
  /\ Number_toString (SFdiv prec emax (num 1) (num 10000000)) = js "1e-7".
Proof. repeat split. Qed.

Example Number_toString_large :
  Number_toString (num (10 ^ 21)) = js "1e+21"
  /\ Number_toString (num 123456789012345680000) = js "123456789012345680000"
  /\ Number_toString (num (2 ^ 53)) = js "9007199254740992".
Proof. repeat split. Qed.

Example JSON_stringify_array :
  JSON_stringify (VArr [VNum (num 1); VUndefined; VObj [(js "a", VUndefined)]])
  = Some (js "[" ++ newline ++ js "  1," ++ newline ++ js "  null," ++ newline
          ++ js "  {}" ++ newline ++ js "]").
Proof. reflexivity. Qed.

Example JSON_stringify_object :
  JSON_stringify (VObj [(js "humidity", VNum (num 81));
                        (js "wind", VObj [(js "speed", VNum (num 4))])])
  = Some (js "{" ++ newline
          ++ js "  " ++ quote (js "humidity") ++ js ": 81," ++ newline
          ++ js "  " ++ quote (js "wind") ++ js ": {" ++ newline
          ++ js "    " ++ quote (js "speed") ++ js ": 4" ++ newline
          ++ js "  }" ++ newline ++ js "}").
Proof. reflexivity. Qed.

(** ToString in a template literal: an array is joined, [null] and
    [undefined] counting for nothing in it; an object whose own [toString]
    is data has no text, nor has an array that holds one. *)
Example ToString_examples :
  ToString (VNum (num 404)) = Some (js "404")
  /\ ToString (VArr [VNum (num 1); VNull; VStr (js "a")]) = Some (js "1,,a")
  /\ ToString (VObj [(js "code", VNum (num 1))]) = Some (js "[object Object]")
  /\ ToString (VObj [(js "toString", VNum (num 1))]) = None
  /\ ToString (VArr [VObj [(js "toString", VNum (num 1))]]) = None.
Proof. vm_compute. repeat split. Qed.

(** The error bodies [null] and [{ "message": { "toString": 1 } }] are
    unreportable; [{ "cod": "404" }], which has no [message], is not. *)
Example unreportable_examples :
  unreportable VNull
  /\ unreportable (VObj [(js "message", VObj [(js "toString", VNum (num 1))])])
  /\ ~ unreportable (VObj [(js "cod", VStr (js "404"))]).
Proof.
  split; [now left|]. split.
  - right. eexists. split; reflexivity.
  - intros [[=] | (m & [= <-] & [=])].
Qed.

Example decodeURIComponent_examples :
  decodeURIComponent (js "San%20Francisco") = Some (js "San Francisco")
  /\ decodeURIComponent (js "Z%C3%BCrich") = Some (js "Z" ++ [252%N] ++ js "rich")
  /\ decodeURIComponent (js "100%") = None
  /\ decodeURIComponent (js "%C0%80") = None.
Proof. repeat split. Qed.

Example Date_toISOString_examples :
  Date_toISOString 0 = js "1970-01-01T00:00:00.000Z"
  /\ Date_toISOString 1700000000000 = js "2023-11-14T22:13:20.000Z"
  /\ Date_toISOString 951782400123 = js "2000-02-29T00:00:00.123Z".
Proof. repeat split. Qed.

(** ** Strings and the URI pattern *)

Lemma jstring_eqb_eq (a b : jstring) : jstring_eqb a b = true <-> a = b.
Proof.
  revert b. induction a as [|x a IH]; intros [|y b]; simpl; split; try congruence; auto.
  - intros H. apply andb_true_iff in H as [Hx Ha].
    apply N.eqb_eq in Hx. apply IH in Ha. congruence.
  - intros [= -> ->]. rewrite N.eqb_refl. simpl. now apply IH.
Qed.

Lemma jstring_eqb_neq (a b : jstring) : jstring_eqb a b = false <-> a <> b.
Proof.
  rewrite <- jstring_eqb_eq. destruct (jstring_eqb a b); split; congruence.
Qed.

Section Pattern.

Lemma literal_units (s : string) : literal s = units (js s).
Proof. reflexivity. Qed.

(** A non-empty literal consumes itself and nothing else. *)
Lemma run_units_inv (l : jstring) (ps : list piece) start caps s r :
  l <> [] ->
  run (units l ++ ps) start caps s = Some r ->
  exists rest, s = l ++ rest /\ run ps false caps rest = Some r.
Proof.
  revert start s. induction l as [|c l IH]; intros start s Hne H; [congruence|].
  simpl in H. destruct s as [|d s]; [discriminate|].
  destruct (N.eqb_spec d c) as [->|]; [|discriminate].
  destruct l as [|c' l].
  - exists s. split; [reflexivity | exact H].
  - destruct (IH false s ltac:(discriminate) H) as (rest & -> & Hr).
    exists rest. split; [reflexivity | exact Hr].
Qed.

Lemma run_units_app (l : jstring) (ps : list piece) start caps rest :
  l <> [] ->
  run (units l ++ ps) start caps (l ++ rest) = run ps false caps rest.
Proof.
  revert start. induction l as [|c l IH]; intros start Hne; [congruence|].
  simpl. rewrite N.eqb_refl.
  destruct l as [|c' l]; [reflexivity|].
  apply IH. discriminate.
Qed.

(** A pattern that begins with [^] matches at the beginning only. *)
Lemma search_Bol_later (ps : list piece) (s : jstring) :
  search (Bol :: ps) false s = None.
Proof. induction s as [|c s IH]; simpl; auto. Qed.

Lemma search_Bol (ps : list piece) (s : jstring) :
  search (Bol :: ps) true s = run ps true [] s.
Proof.
  destruct s as [|c s]; simpl.
  - now destruct (run ps true [] []).
  - destruct (run ps true [] (c :: s)); [reflexivity|]. apply search_Bol_later.
Qed.

Context {R : Type} (a : atom) (k : jstring -> jstring -> option R).

(** What the group consumed is a non-empty run of units the atom
    matches, and the continuation succeeded behind it. *)
Lemma plus_loop_sound (s got : jstring) (r : R) :
  plus_loop a k got s = Some r ->
  exists p rest, s = p ++ rest /\ p <> [] /\ forallb (atom_matches a) p = true
                 /\ k (got ++ p) rest = Some r.
Proof.
  revert got. induction s as [|c s IH]; intros got H; simpl in H; [discriminate|].
  destruct (atom_matches a c) eqn:Hc; [|discriminate].
  destruct (plus_loop a k (got ++ [c]) s) as [r'|] eqn:Hloop.
  - injection H as ->. destruct (IH _ Hloop) as (p & rest & -> & Hp & Hall & Hk).
    exists (c :: p), rest. repeat split; [discriminate | simpl; now rewrite Hc |].
    now rewrite <- app_assoc in Hk.
  - exists [c], s. repeat split; [discriminate | simpl; now rewrite Hc | exact H].
Qed.

(** Backtracking finds a split whenever there is one. *)
Lemma plus_loop_complete (p rest got : jstring) (r0 : R) :
  p <> [] -> forallb (atom_matches a) p = true ->
  k (got ++ p) rest = Some r0 ->
  exists r, plus_loop a k got (p ++ rest) = Some r.
Proof.
  revert got. induction p as [|c p IH]; intros got Hne Hall Hk; [congruence|].
  simpl in Hall. apply andb_true_iff in Hall as [Hc Hall].
  simpl. rewrite Hc.
  destruct (plus_loop a k (got ++ [c]) (p ++ rest)) as [r|] eqn:Hloop; [eauto|].
  destruct p as [|c' p].
  - simpl. eauto.
  - destruct (IH (got ++ [c]) ltac:(discriminate) Hall) as [r Hr].
    + now rewrite <- app_assoc.
    + congruence.
Qed.

End Pattern.

(** A pattern [^pre(.+)suf$] matches exactly the strings [pre X suf] with
    [X] non-empty and free of line terminators, and captures [X]. *)
Lemma anchored_group_spec (pre suf s : jstring) (caps : list jstring) :
  pre <> [] -> suf <> [] ->
  String_match s (Bol :: units pre ++ [PlusGroup Dot] ++ units suf ++ [Eol]) = Some caps <->
  exists X, caps = [X] /\ X <> [] /\ no_line_terminator X = true
            /\ s = pre ++ X ++ suf.
Proof.
  intros Hpre Hsuf. unfold String_match. rewrite search_Bol.
  set (k := fun got rest : jstring => run (units suf ++ [Eol]) false ([] ++ [got]) rest).
  assert (Hk : forall got rest r, k got rest = Some r -> rest = suf /\ r = [got]).
  { intros got rest r H. unfold k in H.
    apply run_units_inv in H as (rest' & -> & H); [|assumption].
    simpl in H. destruct rest'; [|discriminate]. injection H as <-.
    now rewrite app_nil_r. }
  split.
  - intros H.
    apply run_units_inv in H as (rest & -> & H); [|assumption].
    change (plus_loop Dot k [] rest = Some caps) in H.
    apply plus_loop_sound in H as (X & rest' & -> & HX & Hall & H).
    apply Hk in H as [-> ->]. exists X. auto.
  - intros (X & -> & HX & Hall & ->).
    rewrite run_units_app by assumption.
    change (plus_loop Dot k [] (X ++ suf) = Some [X]).
    destruct (plus_loop_complete Dot k X suf [] [X] HX Hall) as [r Hr].
    { unfold k. rewrite <- (app_nil_r suf) at 2.
      rewrite run_units_app by assumption. reflexivity. }
    rewrite Hr. f_equal.
    apply plus_loop_sound in Hr as (X' & rest' & Hsplit & _ & _ & H).
    apply Hk in H as [-> ->]. apply app_inv_tail in Hsplit. now subst.
Qed.

(** The pattern of line 74 matches exactly the strings
    [weather://X/current] with [X] non-empty and free of line terminators,
    and captures [X]. *)
Lemma uri_pattern_spec (s : jstring) (caps : list jstring) :
  String_match s uri_pattern = Some caps <->
  exists X, caps = [X] /\ X <> [] /\ no_line_terminator X = true
            /\ s = js "weather://" ++ X ++ js "/current".
Proof.
  unfold uri_pattern. rewrite !literal_units.
  apply anchored_group_spec; discriminate.
Qed.

(** The segment may hold slashes, and the last [/current] is the suffix. *)
Example segment_with_slash :
  String_match (js "weather://a/b/current") uri_pattern = Some [js "a/b"].
Proof. reflexivity. Qed.

Example segment_with_current :
  String_match (js "weather://a/current/current") uri_pattern = Some [js "a/current"].
Proof. reflexivity. Qed.

(** A string without [%] decodes to itself. *)
Lemma decode_plain (s : jstring) :
  forallb (fun c => negb (c =? percent)%N) s = true ->
  decodeURIComponent s = Some s.
Proof.
  unfold decodeURIComponent. induction s as [|c s IH]; [reflexivity|].
  cbn [forallb]. intros H. apply andb_true_iff in H as [Hc Hs].
  cbn [decode_from]. apply negb_true_iff in Hc. rewrite Hc, (IH Hs). reflexivity.
Qed.

(** A city name without [%] and without a line terminator is the city of
    its own URI. *)
Lemma plain_city_uri (city : jstring) :
  city <> [] ->
  no_line_terminator city = true ->
  forallb (fun c => negb (c =? percent)%N) city = true ->
  request_key (ReadResource (js "weather://" ++ city ++ js "/current"))
  = Some (js "current_weather_" ++ city).
Proof.
  intros Hne Hall Hplain. unfold request_key.
  assert (Hm : String_match (js "weather://" ++ city ++ js "/current") uri_pattern
               = Some [city]) by (apply uri_pattern_spec; eauto).
  rewrite Hm. cbn [nth]. now rewrite (decode_plain _ Hplain).
Qed.

(** ** Day counts *)

Lemma num_5 : num 5 = S754_finite false 5629499534213120 (-50).
Proof. reflexivity. Qed.

Lemma compare_cont_swap (p q : positive) :
  Pos.compare_cont Eq q p = CompOpp (Pos.compare_cont Eq p q).
Proof. symmetry. apply (Pos.compare_cont_antisym p q Eq). Qed.

(** [a < b] excludes [b < a]. *)
Lemma SFltb_asym (a b : number) : SFltb a b = true -> SFltb b a = false.
Proof.
  unfold SFltb.
  destruct a as [sa|sa| |sa ma ea], b as [sb|sb| |sb mb eb]; simpl;
    try discriminate; try reflexivity;
    try (destruct sa; discriminate || reflexivity);
    try (destruct sb; discriminate || reflexivity);
    try (destruct sa, sb; discriminate || reflexivity).
  destruct sa, sb; try discriminate; try reflexivity;
    rewrite (Z.compare_antisym ea eb); destruct (ea ?= eb) eqn:He; simpl;
    try discriminate; try reflexivity;
    rewrite (compare_cont_swap ma mb);
    destruct (Pos.compare_cont Eq ma mb); simpl; discriminate || reflexivity.
Qed.

(** [a <= b] excludes [b < a]. *)
Lemma SFleb_not_gt (a b : number) : SFleb a b = true -> SFltb b a = false.
Proof.
  unfold SFleb, SFltb.
  destruct a as [sa|sa| |sa ma ea], b as [sb|sb| |sb mb eb]; simpl;
    try discriminate; try reflexivity;
    try (destruct sa; discriminate || reflexivity);
    try (destruct sb; discriminate || reflexivity);
    try (destruct sa, sb; discriminate || reflexivity).
  destruct sa, sb; try discriminate; try reflexivity;
    rewrite (Z.compare_antisym ea eb); destruct (ea ?= eb) eqn:He; simpl;
    try discriminate; try reflexivity;
    rewrite (compare_cont_swap ma mb);
    destruct (Pos.compare_cont Eq ma mb); simpl; discriminate || reflexivity.
Qed.

(** Two finite numbers of the same sign that compare equal are the same. *)
Lemma SFcompare_Eq_finite (s : bool) (m1 m2 : positive) (e1 e2 : Z) :
  SFcompare (S754_finite s m1 e1) (S754_finite s m2 e2) = Some Eq ->
  S754_finite s m1 e1 = S754_finite s m2 e2.
Proof.
  simpl. destruct s; destruct (e1 ?= e2) eqn:He; try discriminate;
    apply Z.compare_eq in He; subst; intros [= H];
    destruct (Pos.compare_cont Eq m1 m2) eqn:Hm; try discriminate;
    apply (Pos.compare_eq m1 m2) in Hm; subst; reflexivity.
Qed.

(** Two finite numbers of the same sign are ordered one way or the other. *)
Lemma SFleb_or_gt_finite (s : bool) (m1 m2 : positive) (e1 e2 : Z) :
  SFleb (S754_finite s m1 e1) (S754_finite s m2 e2) = true
  \/ SFltb (S754_finite s m2 e2) (S754_finite s m1 e1) = true.
Proof.
  unfold SFleb, SFltb, SFcompare.
  rewrite (Z.compare_antisym e1 e2), (compare_cont_swap m1 m2).
  destruct s, (e1 ?= e2), (Pos.compare_cont Eq m1 m2); cbn; auto.
Qed.

(** Neither below the other: the same number. *)
Lemma SFltb_neither_finite (s : bool) (m1 m2 : positive) (e1 e2 : Z) :
  SFltb (S754_finite s m1 e1) (S754_finite s m2 e2) = false ->
  SFltb (S754_finite s m2 e2) (S754_finite s m1 e1) = false ->
  S754_finite s m1 e1 = S754_finite s m2 e2.
Proof.
  intros H1 H2. apply SFcompare_Eq_finite. revert H1 H2.
  unfold SFltb, SFcompare.
  rewrite (Z.compare_antisym e1 e2), (compare_cont_swap m1 m2).
  destruct s, (e1 ?= e2), (Pos.compare_cont Eq m1 m2); cbn; congruence.
Qed.

(** A number that is at least 1 is truthy. *)
Lemma at_least_one_truthy (d : number) : SFleb (num 1) d = true -> num_truthy d = true.
Proof. destruct d as [s|s| |s m e]; try discriminate; reflexivity. Qed.

(** [Math.min(days || 3, 5)] by cases on a number [d]: the falsy numbers
    give the default 3, a number above 5 gives 5, any other number is kept. *)
Lemma effective_days_cases (d : number) :
  effective_days (VNum d) =
  if negb (num_truthy d) then num 3
  else if SFltb (num 5) d then num 5
  else d.
Proof.
  unfold effective_days, or_else, truthy, ToNumber.
  destruct (num_truthy d) eqn:Ht; [|reflexivity]. cbn [negb].
  destruct d as [s|s| |s m e]; try discriminate.
  - destruct s; reflexivity.
  - rewrite num_5. unfold Math_min.
    destruct (SFltb (S754_finite false 5629499534213120 (-50)) (S754_finite s m e)) eqn:H5.
    + now rewrite (SFltb_asym _ _ H5).
    + destruct (SFltb (S754_finite s m e) (S754_finite false 5629499534213120 (-50))) eqn:Hd;
        [reflexivity|].
      destruct s; [discriminate Hd|].
      symmetry. exact (SFltb_neither_finite false _ _ _ _ Hd H5).
Qed.

(** A negative day count is kept as it is. *)
Lemma effective_days_negative (d : number) :
  SFltb d (num 0) = true -> effective_days (VNum d) = d.
Proof.
  intros H. rewrite effective_days_cases.
  destruct d as [s|s| |s m e]; try discriminate H; destruct s; try discriminate H; reflexivity.
Qed.


(** ** The cache *)

(** A fresh entry is the entry of the cache. *)
Lemma fresh_entry_Some (cached : option CacheEntry) (now : Z) (hit : CacheEntry) :
  fresh_entry cached now = Some hit <->
  cached = Some hit /\ now - timestamp hit < cacheDuration.
Proof.
  unfold fresh_entry. destruct cached as [e|]; [|split; [discriminate | intros [[=] _]]].
  destruct (Z.ltb_spec (now - timestamp e) cacheDuration); split.
  - intros [= ->]. auto.
  - intros [[= ->] _]. reflexivity.
  - discriminate.
  - intros [[= ->] ?]. lia.
Qed.

(** No entry, or a stale one. *)
Lemma fresh_entry_None (cached : option CacheEntry) (now : Z) :
  fresh_entry cached now = None <->
  (forall e, cached = Some e -> cacheDuration <= now - timestamp e).
Proof.
  unfold fresh_entry. destruct cached as [e|]; [|split; [intros _ e [=] | reflexivity]].
  destruct (Z.ltb_spec (now - timestamp e) cacheDuration); split.
  - discriminate.
  - intros H'. specialize (H' e eq_refl). lia.
  - intros _ e' [= <-]. assumption.
  - reflexivity.
Qed.

(** An entry that is stale stays stale as the clock advances. *)
Lemma fresh_entry_None_later (cached : option CacheEntry) (now later : Z) :
  fresh_entry cached now = None -> now <= later -> fresh_entry cached later = None.
Proof.
  unfold fresh_entry. destruct cached as [e|]; [|reflexivity].
  destruct (Z.ltb_spec (now - timestamp e) cacheDuration); [discriminate|].
  intros _ Hle. destruct (Z.ltb_spec (later - timestamp e) cacheDuration); [lia | reflexivity].
Qed.

(** ** The handlers, case by case *)

Lemma weatherData_snapshot (payload : value) (w : env) (c : gmap jstring CacheEntry) :
  weatherData payload w c =
  (match snapshot payload (clock_later w) with
   | Some s => Return s
   | None => Throw TypeError
   end, c, []).
Proof.
  unfold weatherData, snapshot, path, prop, bind, or_TypeError, new_Date. cbn [fold_left].
  destruct (get payload (js "main")) as [main|]; [|reflexivity]. cbn [ret throw].
  destruct (get main (js "temp")) as [temp|]; [|reflexivity]. cbn [ret throw].
  destruct (get payload (js "weather")) as [weather|]; [|reflexivity]. cbn [ret throw].
  destruct (get weather (js "0")) as [first|]; [|reflexivity]. cbn [ret throw].
  destruct (get first (js "description")) as [description|]; [|reflexivity]. cbn [ret throw].
  destruct (get main (js "humidity")) as [humidity|]; [|reflexivity]. cbn [ret throw].
  destruct (get payload (js "wind")) as [wind|]; [|reflexivity]. cbn [ret throw].
  destruct (get wind (js "speed")) as [speed|]; reflexivity.
Qed.

(** The [try]/[catch] of the read handler, by the answer of the upstream. *)
Lemma fetch_current_cases (request_uri city key : jstring) (now : Z) (w : env)
    (c : gmap jstring CacheEntry) :
  let call := HttpGet (js "weather") (VObj [(js "q", VStr city)]) in
  fetch_current request_uri city key now w c =
  match upstream w (js "weather") (VObj [(js "q", VStr city)]) with
  | Return payload =>
      match snapshot payload (clock_later w) with
      | Some s => (Return (json_contents request_uri s),
                   <[key := {| data := s; timestamp := now |}]> c,
                   [call; CacheSet key])
      | None => (Throw TypeError, c, [call])
      end
  | Throw (AxiosError response message) =>
      match error_text response message with
      | Some text => (Throw (McpError InternalError text), c, [call])
      | None => (Throw TypeError, c, [call])
      end
  | Throw e => (Throw e, c, [call])
  end.
Proof.
  intros call. unfold fetch_current, try_catch, bind, axios_get.
  destruct (upstream w (js "weather") (VObj [(js "q", VStr city)])) as [payload|e].
  - rewrite weatherData_snapshot.
    destruct (snapshot payload (clock_later w)); reflexivity.
  - destruct e as [| resp msg | | |]; try reflexivity.
    unfold error_text, or_TypeError. destruct (error_detail resp msg) as [detail|];
      [|reflexivity].
    cbn [ret]. destruct (api_error_text detail); reflexivity.
Qed.

(** The [try]/[catch] of the tool handler, by the answer of the upstream. *)
Lemma fetch_forecast_cases (city : value) (days : number) (key : jstring) (now : Z)
    (w : env) (c : gmap jstring CacheEntry) :
  let call := HttpGet (js "forecast") (forecast_params city days) in
  fetch_forecast city days key now w c =
  match upstream w (js "forecast") (forecast_params city days) with
  | Return payload =>
      match get payload (js "list") with
      | Some list => (Return {| content_text := JSON_stringify list; isError := false |},
                      <[key := {| data := list; timestamp := now |}]> c,
                      [call; CacheSet key])
      | None => (Throw TypeError, c, [call])
      end
  | Throw (AxiosError response message) =>
      match error_text response message with
      | Some text => (Return {| content_text := Some text; isError := true |}, c, [call])
      | None => (Throw TypeError, c, [call])
      end
  | Throw e => (Throw e, c, [call])
  end.
Proof.
  intros call. unfold fetch_forecast, try_catch, bind, axios_get, prop, or_TypeError.
  destruct (upstream w (js "forecast") (forecast_params city days)) as [payload|e].
  - destruct (get payload (js "list")); reflexivity.
  - destruct e as [| resp msg | | |]; try reflexivity.
    unfold error_text. destruct (error_detail resp msg) as [detail|]; [|reflexivity].
    cbn [ret]. destruct (api_error_text detail); reflexivity.
Qed.

(** The read handler on a URI the pattern rejects. *)
Lemma read_resource_no_match (request_uri : jstring) (w : env) (c : gmap jstring CacheEntry) :
  String_match request_uri uri_pattern = None ->
  read_resource request_uri w c =
  (Throw (McpError InvalidRequest (js "Invalid URI format: " ++ request_uri)), c, []).
Proof. intros H. unfold read_resource. now rewrite H. Qed.

(** The read handler on a URI whose segment decodes to [city]. *)
Lemma read_resource_city (request_uri X city : jstring) (w : env)
    (c : gmap jstring CacheEntry) :
  String_match request_uri uri_pattern = Some [X] ->
  decodeURIComponent X = Some city ->
  let key := js "current_weather_" ++ city in
  read_resource request_uri w c =
  match fresh_entry (c !! key) (clock w) with
  | Some hit => (Return (json_contents request_uri (data hit)), c, [CacheGet key])
  | None =>
      let '(r, c', t) := fetch_current request_uri city key (clock w) w c in
      (r, c', CacheGet key :: t)
  end.
Proof.
  intros Hm Hd key. unfold read_resource. rewrite Hm. cbn [nth]. rewrite Hd.
  unfold bind, cache_get, Date_now. fold key.
  destruct (fresh_entry (c !! key) (clock w)); [reflexivity|].
  now destruct (fetch_current request_uri city key (clock w) w c) as [[r c'] t].
Qed.

(** What [isValidForecastArgs] accepts. *)
Lemma isValidForecastArgs_spec (args : value) :
  isValidForecastArgs args = true <->
  structured args
  /\ (exists city, get args (js "city") = Some (VStr city))
  /\ (get args (js "days") = Some VUndefined
      \/ exists n, get args (js "days") = Some (VNum n)).
Proof.
  unfold isValidForecastArgs.
  destruct args as [| | b | n | s | items | props]; cbn [typeof type_tag_eqb is_null negb andb structured];
    try (split; [discriminate | tauto]).
  - change (get (VArr items) (js "city")) with (Some VUndefined).
    cbn. split; [discriminate|]. intros (_ & (city & [=]) & _).
  - cbn [get].
    destruct (lookup_prop (js "city") props) as [| | | | city | |];
      cbn [typeof type_tag_eqb andb];
      try (split; [discriminate | intros (_ & (city & [=]) & _)]).
    destruct (lookup_prop (js "days") props) as [| | | n | | |];
      cbn [typeof type_tag_eqb is_undefined orb];
      split; try discriminate; try (intros (_ & _ & [[=] | (n' & [=])])); eauto 6.
    all: intros _; repeat split; eauto.
Qed.

(** After the validation the argument of [Math.min] is a number. *)
Lemma valid_days_number (args days_arg : value) :
  isValidForecastArgs args = true ->
  get args (js "days") = Some days_arg ->
  exists n, or_else days_arg (VNum (num 3)) = VNum n.
Proof.
  intros Hv Hd. apply isValidForecastArgs_spec in Hv as (_ & _ & [H | [n H]]);
    rewrite Hd in H; injection H as ->.
  - now exists (num 3).
  - unfold or_else. destruct (truthy (VNum n)); eauto.
Qed.

(** The tool handler on a name or on arguments it rejects. *)
Lemma call_tool_rejected (name : jstring) (args : value) (w : env)
    (c : gmap jstring CacheEntry) :
  jstring_eqb name (js "get_forecast") && isValidForecastArgs args = false ->
  exists e, call_tool name args w c = (Throw e, c, []).
Proof.
  unfold call_tool. destruct (jstring_eqb name (js "get_forecast")); cbn [negb andb].
  - intros ->. cbn [negb]. eauto.
  - eauto.
Qed.

(** The tool handler on arguments that pass the validation. *)
Lemma call_tool_valid (args city days_arg : value) (w : env) (c : gmap jstring CacheEntry) :
  isValidForecastArgs args = true ->
  get args (js "city") = Some city ->
  get args (js "days") = Some days_arg ->
  let days := effective_days days_arg in
  let key := forecast_key city days in
  call_tool (js "get_forecast") args w c =
  match fresh_entry (c !! key) (clock w) with
  | Some hit => (Return (json_text (data hit)), c, [CacheGet key])
  | None =>
      let '(r, c', t) := fetch_forecast city days key (clock w) w c in
      (r, c', CacheGet key :: t)
  end.
Proof.
  intros Hv Hc Hd days key. unfold call_tool.
  replace (jstring_eqb (js "get_forecast") (js "get_forecast")) with true by reflexivity.
  rewrite Hv. cbn [negb]. unfold prop, bind, or_TypeError, cache_get, Date_now.
  rewrite Hc, Hd. cbn [ret]. fold days. fold key.
  destruct (fresh_entry (c !! key) (clock w)); [reflexivity|].
  now destruct (fetch_forecast city days key (clock w) w c) as [[r c'] t].
Qed.

(** The trace and the cache of a tool call with valid arguments: the cache
    is read at the key, and only a miss goes upstream, with the sample count
    [days * 8], and only a success writes the key. *)
Lemma call_tool_trace (args city days_arg : value) (w : env) (c : gmap jstring CacheEntry) :
  isValidForecastArgs args = true ->
  get args (js "city") = Some city ->
  get args (js "days") = Some days_arg ->
  let days := effective_days days_arg in
  let key := forecast_key city days in
  let call := HttpGet (js "forecast") (forecast_params city days) in
  let run := call_tool (js "get_forecast") args w c in
  match fresh_entry (c !! key) (clock w) with
  | Some hit => trace_of run = [CacheGet key] /\ cache_after run = c
  | None =>
      (trace_of run = [CacheGet key; call] /\ cache_after run = c)
      \/ (trace_of run = [CacheGet key; call; CacheSet key]
          /\ exists e, cache_after run = <[key := e]> c)
  end.
Proof.
  intros Hv Hc Hd days key call run. unfold run.
  rewrite (call_tool_valid _ _ _ _ _ Hv Hc Hd). fold days key.
  destruct (fresh_entry (c !! key) (clock w)); [auto|].
  rewrite fetch_forecast_cases. fold call.
  destruct (upstream w (js "forecast") (forecast_params city days)) as [payload|e].
  - destruct (get payload (js "list")); [right | left]; cbn; eauto.
  - left. destruct e as [| resp msg | | |]; auto.
    destruct (error_text resp msg); auto.
Qed.

(** ** The detail of an upstream failure *)

(** The expression [error.response?.data.message ?? error.message] gives
    the detail the failure is to be reported with, and throws when there
    is none: the error has a response, and its body is [null] or
    [undefined]. *)
Lemma error_detail_spec (resp : option value) (msg : jstring) (detail : value) :
  error_detail resp msg = Some detail <-> reported_detail msg resp detail.
Proof.
  unfold error_detail. split.
  - destruct resp as [body|].
    + destruct (get body (js "message")) as [m|] eqn:Hm; [|discriminate].
      destruct (nullish m) eqn:Hn; intros [= <-].
      * exact (no_message msg body m Hm Hn).
      * exact (upstream_message msg body m Hm Hn).
    + intros [= <-]. constructor.
  - intros [| body m Hm Hn | body m Hm Hn]; [reflexivity | |]; now rewrite Hm, Hn.
Qed.

Lemma error_text_Some (resp : option value) (msg text : jstring) :
  error_text resp msg = Some text <->
  exists detail rest,
    reported_detail msg resp detail /\ ToString detail = Some rest
    /\ text = js "Weather API error: " ++ rest.
Proof.
  unfold error_text, api_error_text. split.
  - destruct (error_detail resp msg) as [detail|] eqn:Hdetail; [|discriminate].
    apply error_detail_spec in Hdetail.
    destruct (ToString detail) as [rest|] eqn:Hrest; [|discriminate].
    intros [= <-]. eauto.
  - intros (detail & rest & Hdetail & Hrest & ->).
    apply error_detail_spec in Hdetail. now rewrite Hdetail, Hrest.
Qed.

Lemma error_text_None (body : value) (msg : jstring) :
  error_text (Some body) msg = None <-> unreportable body.
Proof.
  unfold error_text, error_detail, api_error_text, unreportable. split.
  - destruct (get body (js "message")) as [m|] eqn:Hm.
    + destruct (nullish m) eqn:Hn; [discriminate|].
      destruct (ToString m) eqn:Ht; [discriminate|]. eauto.
    + intros _. left. now destruct body.
  - intros [Hb | (m & Hm & Ht)].
    + now destruct body.
    + rewrite Hm. destruct (nullish m) eqn:Hn; [now destruct m|]. now rewrite Ht.
Qed.

(** ** The server, request by request *)

Lemma bind_ret_trace {A B} (m : M A) (f : A -> B) (w : env) (c : gmap jstring CacheEntry) :
  trace_of ((x <- m ;; ret (f x)) w c) = trace_of (m w c).
Proof.
  unfold bind, ret, trace_of. destruct (m w c) as [[[a|e] c1] t1]; cbn; [|reflexivity].
  apply app_nil_r.
Qed.

Lemma bind_ret_cache {A B} (m : M A) (f : A -> B) (w : env) (c : gmap jstring CacheEntry) :
  cache_after ((x <- m ;; ret (f x)) w c) = cache_after (m w c).
Proof.
  unfold bind, ret, cache_after. now destruct (m w c) as [[[a|e] c1] t1].
Qed.

(** A request either stops before the cache, or reads the cache at its key
    and, on a miss only, calls the upstream once; the cache is then left as
    it was or updated at the key with what the upstream returned. *)
Lemma handle_cases (rq : request) (w : env) (c : gmap jstring CacheEntry) :
  match request_key rq with
  | None => trace_of (handle rq w c) = [] /\ cache_after (handle rq w c) = c
  | Some key =>
      match fresh_entry (c !! key) (clock w) with
      | Some _ => trace_of (handle rq w c) = [CacheGet key]
                  /\ cache_after (handle rq w c) = c
      | None =>
          exists url params,
            (trace_of (handle rq w c) = [CacheGet key; HttpGet url params]
             /\ cache_after (handle rq w c) = c)
            \/ (exists payload entry,
                  upstream w url params = Return payload
                  /\ fetched_entry w key entry
                  /\ trace_of (handle rq w c) = [CacheGet key; HttpGet url params; CacheSet key]
                  /\ cache_after (handle rq w c) = <[key := entry]> c)
      end
  end.
Proof.
  destruct rq as [request_uri | name args]; unfold handle, request_key;
    rewrite !bind_ret_trace, !bind_ret_cache.
  - destruct (String_match request_uri uri_pattern) as [caps|] eqn:Hm.
    2: { rewrite (read_resource_no_match _ _ _ Hm). auto. }
    pose proof Hm as Hm'. apply uri_pattern_spec in Hm' as (X & -> & _).
    cbn [nth]. destruct (decodeURIComponent X) as [city|] eqn:Hd; cbn [option_map].
    2: { unfold read_resource. rewrite Hm. cbn [nth]. rewrite Hd. auto. }
    rewrite (read_resource_city _ _ _ w c Hm Hd). cbn zeta.
    set (key := js "current_weather_" ++ city).
    destruct (fresh_entry (c !! key) (clock w)); [auto|].
    rewrite fetch_current_cases.
    exists (js "weather"), (VObj [(js "q", VStr city)]).
    destruct (upstream w (js "weather") (VObj [(js "q", VStr city)])) as [payload|e] eqn:Hup.
    + destruct (snapshot payload (clock_later w)) as [s|] eqn:Hs; [right | left; auto].
      exists payload, {| data := s; timestamp := clock w |}.
      split; [reflexivity|]. split; [|auto].
      split; [reflexivity|]. left. exists city, payload. auto.
    + left. destruct e as [| resp msg | | |]; auto.
      destruct (error_text resp msg); auto.
  - destruct (jstring_eqb name (js "get_forecast") && isValidForecastArgs args) eqn:Hok.
    2: { destruct (call_tool_rejected name args w c Hok) as [e ->]. auto. }
    apply andb_true_iff in Hok as [Hn Hv]. apply jstring_eqb_eq in Hn as ->.
    pose proof Hv as Hv'.
    apply isValidForecastArgs_spec in Hv' as (_ & (city & Hc) & Hdays).
    assert (exists days_arg, get args (js "days") = Some days_arg) as [days_arg Hd]
      by (destruct Hdays as [H | [n H]]; eauto).
    rewrite Hc, Hd, (call_tool_valid _ _ _ w c Hv Hc Hd). cbn zeta.
    set (days := effective_days days_arg).
    set (key := forecast_key (VStr city) days).
    destruct (fresh_entry (c !! key) (clock w)); [auto|].
    rewrite fetch_forecast_cases.
    exists (js "forecast"), (forecast_params (VStr city) days).
    destruct (upstream w (js "forecast") (forecast_params (VStr city) days))
      as [payload|e] eqn:Hup.
    + destruct (get payload (js "list")) as [list|] eqn:Hl; [right | left; auto].
      exists payload, {| data := list; timestamp := clock w |}.
      split; [reflexivity|]. split; [|auto].
      split; [reflexivity|]. right. exists (VStr city), days, payload. auto.
    + left. destruct e as [| resp msg | | |]; auto.
      destruct (error_text resp msg); auto.
Qed.

(** The number of upstream calls of a request: one on a miss, none
    otherwise. *)
Lemma handle_upstream_calls (rq : request) (w : env) (c : gmap jstring CacheEntry) :
  upstream_calls (trace_of (handle rq w c)) =
  match request_key rq with
  | None => 0%nat
  | Some key => match fresh_entry (c !! key) (clock w) with
                | Some _ => 0%nat
                | None => 1%nat
                end
  end.
Proof.
  pose proof (handle_cases rq w c) as H.
  destruct (request_key rq) as [key|]; [|now destruct H as [-> _]].
  destruct (fresh_entry (c !! key) (clock w)); [now destruct H as [-> _]|].
  destruct H as (url & params & [[-> _] | (payload & entry & _ & _ & -> & _)]); reflexivity.
Qed.

(** What a request leaves in the cache was there before or is what the
    upstream returned to it. *)
Lemma handle_provenance (rq : request) (w : env) (c : gmap jstring CacheEntry)
    (key : jstring) (entry : CacheEntry) :
  cache_after (handle rq w c) !! key = Some entry ->
  c !! key = Some entry \/ fetched_entry w key entry.
Proof.
  pose proof (handle_cases rq w c) as H.
  destruct (request_key rq) as [key0|]; [|destruct H as [_ ->]; auto].
  destruct (fresh_entry (c !! key0) (clock w)); [destruct H as [_ ->]; auto|].
  destruct H as (url & params & [[_ ->] | (payload & entry0 & _ & Hf & _ & ->)]); [auto|].
  destruct (decide (key0 = key)) as [->|Hne].
  - rewrite lookup_insert_eq. intros [= <-]. auto.
  - rewrite lookup_insert_ne by assumption. auto.
Qed.

Lemma serve_provenance (steps : list (request * env)) (c : gmap jstring CacheEntry)
    (key : jstring) (entry : CacheEntry) :
  serve steps c !! key = Some entry ->
  c !! key = Some entry
  \/ exists rq w, In (rq, w) steps /\ fetched_entry w key entry.
Proof.
  revert c. induction steps as [|[rq w] steps IH]; intros c H; [auto|].
  cbn [serve] in H. apply IH in H as [H | (rq' & w' & Hin & Hf)].
  - apply handle_provenance in H as [H | H]; [auto|].
    right. exists rq, w. split; [now left | exact H].
  - right. exists rq', w'. split; [now right | exact Hf].
Qed.

(** A fresh entry outlives the requests handled while it is fresh: a
    request for its key is served from it, a request for another key writes
    elsewhere. *)
Lemma handle_keeps_fresh (rq : request) (w : env) (c : gmap jstring CacheEntry)
    (key : jstring) (entry : CacheEntry) :
  c !! key = Some entry ->
  clock w - timestamp entry < cacheDuration ->
  cache_after (handle rq w c) !! key = Some entry.
Proof.
  intros Hin Hfresh. pose proof (handle_cases rq w c) as H.
  destruct (request_key rq) as [key0|]; [|now destruct H as [_ ->]].
  destruct (fresh_entry (c !! key0) (clock w)) eqn:Hmiss; [now destruct H as [_ ->]|].
  destruct H as (url & params & [[_ ->] | (payload & entry0 & _ & _ & _ & ->)]);
    [assumption|].
  destruct (decide (key0 = key)) as [->|Hne]; [|now rewrite lookup_insert_ne].
  assert (Hhit : fresh_entry (c !! key) (clock w) = Some entry)
    by (apply fresh_entry_Some; auto).
  congruence.
Qed.

Lemma serve_keeps_fresh (steps : list (request * env)) (c : gmap jstring CacheEntry)
    (key : jstring) (entry : CacheEntry) :
  c !! key = Some entry ->
  Forall (fun step => clock (snd step) - timestamp entry < cacheDuration) steps ->
  serve steps c !! key = Some entry.
Proof.
  intros Hin Hall. revert c Hin.
  induction Hall as [|[rq w] steps Hw _ IH]; intros c Hin; [exact Hin|].
  cbn [serve]. apply IH. now apply handle_keeps_fresh.
Qed.

(** ** The claims *)

(** C1: once a read-resource request has fetched from the upstream and
    answered (so that it stored an entry under [current_weather_<city>]), a
    request for the same URI handled less than [cacheDuration] (5 minutes)
    after it returns the same response, whose text is the pretty-printed
    JSON of the cached snapshot; it reads the cache once, calls the upstream
    not at all and leaves the cache as it is.  Any requests may have been
    handled in between, within the same five minutes. *)
Theorem cached_read_is_identical (request_uri : jstring) (w1 w2 : env)
    (c c1 : gmap jstring CacheEntry) (r1 : ResourceContents) (t1 : list event)
    (between : list (request * env)) :
  read_resource request_uri w1 c = (Return r1, c1, t1) ->
  upstream_calls t1 <> 0%nat ->
  Forall (fun step => clock (snd step) - clock w1 < cacheDuration) between ->
  clock w2 - clock w1 < cacheDuration ->
  let c2 := serve between c1 in
  exists X city entry,
    String_match request_uri uri_pattern = Some [X]
    /\ decodeURIComponent X = Some city
    /\ c2 !! (js "current_weather_" ++ city) = Some entry
    /\ timestamp entry = clock w1
    /\ text r1 = JSON_stringify (data entry)
    /\ read_resource request_uri w2 c2
       = (Return r1, c2, [CacheGet (js "current_weather_" ++ city)])
    /\ upstream_calls (trace_of (read_resource request_uri w2 c2)) = 0%nat.
Proof.
  intros H1 Hcalls Hbetween Hlt c2.
  destruct (String_match request_uri uri_pattern) as [caps|] eqn:Hm;
    [|rewrite (read_resource_no_match _ _ _ Hm) in H1; discriminate].
  pose proof Hm as Hm'. apply uri_pattern_spec in Hm' as (X & -> & _).
  destruct (decodeURIComponent X) as [city|] eqn:Hd;
    [|unfold read_resource in H1; rewrite Hm in H1; cbn [nth] in H1;
      rewrite Hd in H1; discriminate].
  exists X, city.
  rewrite (read_resource_city _ _ _ w1 c Hm Hd) in H1. cbn zeta in H1.
  set (key := js "current_weather_" ++ city) in *.
  destruct (fresh_entry (c !! key) (clock w1)) as [hit|].
  { injection H1 as <- <- <-. now elim Hcalls. }
  rewrite fetch_current_cases in H1.
  destruct (upstream w1 (js "weather") (VObj [(js "q", VStr city)])) as [payload|e].
  2: { destruct e as [| resp msg | | |]; try discriminate.
       destruct (error_text resp msg); discriminate. }
  destruct (snapshot payload (clock_later w1)) as [s|]; [|discriminate].
  injection H1 as <- <- <-.
  set (entry := {| data := s; timestamp := clock w1 |}) in *.
  exists entry.
  assert (Hkept : c2 !! key = Some entry).
  { apply serve_keeps_fresh; [apply lookup_insert_eq | exact Hbetween]. }
  assert (Hhit : fresh_entry (c2 !! key) (clock w2) = Some entry).
  { apply fresh_entry_Some. split; [exact Hkept | exact Hlt]. }
  rewrite (read_resource_city _ _ _ w2 _ Hm Hd). cbn zeta. fold key. rewrite Hhit.
  split; [reflexivity|]. split; [exact Hd|]. split; [exact Hkept|].
  split; [reflexivity|]. split; [reflexivity|]. split; reflexivity.
Qed.

(** A read of [weather://San%20Francisco/current] on an empty cache at time
    0 fetches; after a forecast for London at time 100, the same read
    299999 ms after the first is served from the cache. *)
Lemma cached_read_is_identical_witness :
  let request_uri := js "weather://San%20Francisco/current" in
  let w1 := world 0 (Return sample_conditions) in
  let w2 := world 299999 (Throw (OtherError (js "not called"))) in
  let between := [(CallTool (js "get_forecast") (VObj [(js "city", VStr (js "London"))]),
                   world 100 (Return sample_forecast))] in
  let first := read_resource request_uri w1 ∅ in
  let c2 := serve between (cache_after first) in
  (upstream_calls (trace_of first) <> 0%nat
   /\ Forall (fun step => clock (snd step) - clock w1 < cacheDuration) between
   /\ clock w2 - clock w1 < cacheDuration)
  /\ exists r1,
       result_of first = Return r1
       /\ read_resource request_uri w2 c2
          = (Return r1, c2, [CacheGet (js "current_weather_San Francisco")]).
Proof.
  intros request_uri w1 w2 between first c2.
  set (r1 := json_contents request_uri
               (VObj [(js "temperature", VNum (num 15));
                      (js "conditions", VStr (js "light rain"));
                      (js "humidity", VNum (num 81));
                      (js "wind_speed", VNum (num 4));
                      (js "timestamp", VStr (js "1970-01-01T00:00:00.250Z"))])).
  assert (Hfirst : first = (Return r1, cache_after first, trace_of first))
    by (vm_compute; reflexivity).
  assert (Hcalls : upstream_calls (trace_of first) <> 0%nat) by (vm_compute; discriminate).
  assert (Hbetween : Forall (fun step => clock (snd step) - clock w1 < cacheDuration) between)
    by (repeat constructor).
  assert (Hlt : clock w2 - clock w1 < cacheDuration) by (vm_compute; reflexivity).
  split; [repeat split; assumption|]. exists r1. split; [vm_compute; reflexivity|].
  destruct (cached_read_is_identical request_uri w1 w2 ∅ _ r1 _ between
              Hfirst Hcalls Hbetween Hlt)
    as (X & city & entry & Hm & Hd & _ & _ & _ & Hsecond & _).
  assert (Hcity : city = js "San Francisco").
  { assert (HX : Some [X] = Some [js "San%20Francisco"]) by (rewrite <- Hm; reflexivity).
    injection HX as ->. assert (Hc : Some city = Some (js "San Francisco"))
      by (rewrite <- Hd; reflexivity).
    now injection Hc. }
  rewrite Hcity in Hsecond. exact Hsecond.
Defined.

(** C2: for a call of [get_forecast] with valid arguments and a string
    city, an absent [days] gives the day count 3 and 24 samples, [days] = 7
    gives the day count 5 and 40 samples; in general the cache key is
    [forecast_<city>_<days>] for the effective day count and the upstream
    request, made on a miss only, asks for that count times 8 samples. *)
Theorem forecast_day_count (args : value) (city : jstring) (days_arg : value)
    (w : env) (c : gmap jstring CacheEntry) :
  isValidForecastArgs args = true ->
  get args (js "city") = Some (VStr city) ->
  get args (js "days") = Some days_arg ->
  let days := effective_days days_arg in
  let key := js "forecast_" ++ city ++ js "_" ++ Number_toString days in
  let call := HttpGet (js "forecast")
                (VObj [(js "q", VStr city); (js "cnt", VNum (num_mul days (num 8)))]) in
  let run := call_tool (js "get_forecast") args w c in
  (days_arg = VUndefined -> days = num 3 /\ num_mul days (num 8) = num 24)
  /\ (days_arg = VNum (num 7) -> days = num 5 /\ num_mul days (num 8) = num 40)
  /\ (exists rest, trace_of run = CacheGet key :: rest
        /\ (fresh_entry (c !! key) (clock w) = None ->
            rest = [call] \/ rest = [call; CacheSet key])
        /\ (fresh_entry (c !! key) (clock w) <> None -> rest = []))
  /\ (forall key', key' <> key -> cache_after run !! key' = c !! key').
Proof.
  intros Hv Hc Hd days key call run.
  split; [intros ->; split; reflexivity|].
  split; [intros ->; split; reflexivity|].
  pose proof (call_tool_trace args (VStr city) days_arg w c Hv Hc Hd) as H.
  cbn zeta in H. fold days in H. change (forecast_key (VStr city) days) with key in H.
  change (HttpGet (js "forecast") (forecast_params (VStr city) days)) with call in H.
  fold run in H.
  destruct (fresh_entry (c !! key) (clock w)) as [hit|].
  - destruct H as [Ht Hc']. split.
    + exists []. split; [exact Ht | split; [discriminate | reflexivity]].
    + intros key' _. now rewrite Hc'.
  - destruct H as [[Ht Hc'] | [Ht [e Hc']]]; (split; [eexists; split; [exact Ht|]|]).
    + split; [auto | congruence].
    + intros key' _. now rewrite Hc'.
    + split; [auto | congruence].
    + intros key' Hk. rewrite Hc'. now apply lookup_insert_ne.
Qed.

(** [{ city: "London" }] on an empty cache: 3 days, 24 samples, key
    [forecast_London_3]. *)
Lemma forecast_day_count_witness :
  let args := VObj [(js "city", VStr (js "London"))] in
  (isValidForecastArgs args = true
   /\ get args (js "city") = Some (VStr (js "London"))
   /\ get args (js "days") = Some VUndefined)
  /\ effective_days VUndefined = num 3
  /\ num_mul (effective_days VUndefined) (num 8) = num 24
  /\ exists rest,
       trace_of (call_tool (js "get_forecast") args (world 0 (Return sample_forecast)) ∅)
       = CacheGet (js "forecast_London_3") :: rest.
Proof.
  intros args. split; [repeat split|].
  destruct (forecast_day_count args (js "London") VUndefined
              (world 0 (Return sample_forecast)) ∅ eq_refl eq_refl eq_refl)
    as (H3 & _ & (rest & Ht & _) & _).
  destruct (H3 eq_refl) as [Hd Hs].
  split; [exact Hd|]. split; [exact Hs|]. exists rest. exact Ht.
Defined.

(** C3: an upstream failure is not always reported in the two ways of the
    handlers.  When the upstream answers an error status with a body that
    is [null], or with one whose [message] is a value ToString throws on,
    building the text [Weather API error: ...] throws a TypeError inside
    the catch block of either handler.  The read-resource handler then
    fails with that TypeError and not with an internal-error fault, and the
    tool handler fails with it too, where it was to return a response
    flagged [isError: true].  The cache is left as it was. *)
Theorem unreportable_failure_escapes (w : env) (c : gmap jstring CacheEntry)
    (body : value) (msg : jstring) :
  unreportable body ->
  (forall request_uri X city,
      String_match request_uri uri_pattern = Some [X] ->
      decodeURIComponent X = Some city ->
      let key := js "current_weather_" ++ city in
      let call := HttpGet (js "weather") (VObj [(js "q", VStr city)]) in
      fresh_entry (c !! key) (clock w) = None ->
      upstream w (js "weather") (VObj [(js "q", VStr city)])
      = Throw (AxiosError (Some body) msg) ->
      read_resource request_uri w c = (Throw TypeError, c, [CacheGet key; call]))
  /\ (forall args city days_arg,
        isValidForecastArgs args = true ->
        get args (js "city") = Some city ->
        get args (js "days") = Some days_arg ->
        let days := effective_days days_arg in
        let key := forecast_key city days in
        let call := HttpGet (js "forecast") (forecast_params city days) in
        fresh_entry (c !! key) (clock w) = None ->
        upstream w (js "forecast") (forecast_params city days)
        = Throw (AxiosError (Some body) msg) ->
        call_tool (js "get_forecast") args w c = (Throw TypeError, c, [CacheGet key; call])).
Proof.
  intros Hbody. apply (error_text_None body msg) in Hbody. split.
  - intros request_uri X city Hm Hd key call Hmiss Hup.
    rewrite (read_resource_city _ _ _ w c Hm Hd). cbn zeta. fold key. rewrite Hmiss.
    now rewrite fetch_current_cases, Hup, Hbody.
  - intros args city days_arg Hv Hc Hd days key call Hmiss Hup.
    rewrite (call_tool_valid _ _ _ w c Hv Hc Hd). cbn zeta. fold days key. rewrite Hmiss.
    now rewrite fetch_forecast_cases, Hup, Hbody.
Qed.

(** The upstream answers 500 with the body [null]: both requests fail with
    a TypeError, the call of the tool too. *)
Lemma unreportable_failure_escapes_witness :
  let failure := AxiosError (Some VNull) (js "Request failed with status code 500") in
  let w := world 0 (Throw failure) in
  read_resource (js "weather://London/current") w ∅
  = (Throw TypeError, ∅,
     [CacheGet (js "current_weather_London");
      HttpGet (js "weather") (VObj [(js "q", VStr (js "London"))])])
  /\ call_tool (js "get_forecast") (VObj [(js "city", VStr (js "London"))]) w ∅
     = (Throw TypeError, ∅,
        [CacheGet (js "forecast_London_3");
         HttpGet (js "forecast")
           (VObj [(js "q", VStr (js "London")); (js "cnt", VNum (num 24))])]).
Proof.
  intros failure w.
  destruct (unreportable_failure_escapes w ∅ VNull
              (js "Request failed with status code 500") (or_introl eq_refl))
    as [Hread Htool].
  split.
  - exact (Hread (js "weather://London/current") (js "London") (js "London")
             eq_refl eq_refl eq_refl eq_refl).
  - exact (Htool (VObj [(js "city", VStr (js "London"))]) (VStr (js "London")) VUndefined
             eq_refl eq_refl eq_refl eq_refl eq_refl).
Defined.

(** C4, the day count 0: it is falsy, so the default 3 replaces it in the
    cache key and in the sample count. *)
Lemma zero_days_replaced_by_default :
  effective_days (VNum (num 0)) = num 3
  /\ effective_days (VNum (num 0)) <> num 0
  /\ trace_of (call_tool (js "get_forecast") (forecast_args "London" 0)
                 (world 0 (Return sample_forecast)) ∅)
     = [CacheGet (js "forecast_London_3");
        HttpGet (js "forecast")
          (VObj [(js "q", VStr (js "London")); (js "cnt", VNum (num 24))]);
        CacheSet (js "forecast_London_3")].
Proof. split; [reflexivity | split; [discriminate | reflexivity]]. Qed.

(** C4, amended: the only clamp on a supplied day count [d] is the upper
    bound 5 (and a falsy [d], that is 0 or NaN, is replaced by the default
    3); there is no lower bound: a negative [d] is the effective day count,
    it is written as it is into the cache key [forecast_<city>_<d>] and the
    upstream request of a miss asks for [d * 8] samples. *)
Theorem negative_days_pass_through (args : value) (city : jstring) (d : number)
    (w : env) (c : gmap jstring CacheEntry) :
  isValidForecastArgs args = true ->
  get args (js "city") = Some (VStr city) ->
  get args (js "days") = Some (VNum d) ->
  let run := call_tool (js "get_forecast") args w c in
  effective_days (VNum d)
    = (if negb (num_truthy d) then num 3 else if SFltb (num 5) d then num 5 else d)
  /\ (SFltb d (num 0) = true ->
      let key := js "forecast_" ++ city ++ js "_" ++ Number_toString d in
      let call := HttpGet (js "forecast")
                    (VObj [(js "q", VStr city); (js "cnt", VNum (num_mul d (num 8)))]) in
      effective_days (VNum d) = d
      /\ exists rest, trace_of run = CacheGet key :: rest
           /\ (fresh_entry (c !! key) (clock w) = None ->
               rest = [call] \/ rest = [call; CacheSet key])).
Proof.
  intros Hv Hc Hd run. split; [apply effective_days_cases|].
  intros Hneg key call. split; [now apply effective_days_negative|].
  pose proof (call_tool_trace args (VStr city) (VNum d) w c Hv Hc Hd) as H.
  cbn zeta in H. rewrite (effective_days_negative d Hneg) in H.
  change (forecast_key (VStr city) d) with key in H.
  change (HttpGet (js "forecast") (forecast_params (VStr city) d)) with call in H.
  fold run in H.
  destruct (fresh_entry (c !! key) (clock w)) as [hit|].
  - destruct H as [Ht _]. exists []. split; [exact Ht | discriminate].
  - destruct H as [[Ht _] | [Ht _]]; eexists; (split; [exact Ht | auto]).
Qed.

(** [{ city: "London", days: -2 }] on an empty cache: key
    [forecast_London_-2], [-16] samples. *)
Lemma negative_days_pass_through_witness :
  let args := forecast_args "London" (-2) in
  (isValidForecastArgs args = true /\ SFltb (num (-2)) (num 0) = true)
  /\ effective_days (VNum (num (-2))) = num (-2)
  /\ exists rest,
       trace_of (call_tool (js "get_forecast") args (world 0 (Return sample_forecast)) ∅)
       = CacheGet (js "forecast_London_-2") :: rest
       /\ (rest = [HttpGet (js "forecast")
                     (VObj [(js "q", VStr (js "London")); (js "cnt", VNum (num (-16)))])]
           \/ rest = [HttpGet (js "forecast")
                        (VObj [(js "q", VStr (js "London")); (js "cnt", VNum (num (-16)))]);
                      CacheSet (js "forecast_London_-2")]).
Proof.
  intros args. split; [split; reflexivity|].
  destruct (negative_days_pass_through args (js "London") (num (-2))
              (world 0 (Return sample_forecast)) ∅ eq_refl eq_refl eq_refl)
    as (_ & H).
  destruct (H eq_refl) as (He & rest & Ht & Hr).
  split; [exact He|]. exists rest. split; [exact Ht | exact (Hr eq_refl)].
Defined.

(** C5: a tool name other than [get_forecast] is rejected with a
    method-not-found error; with that name, arguments that are not a
    non-null structured value with a string [city] and an absent-or-number
    [days] are rejected with an invalid-params error; both rejections leave
    the cache as it was and have an empty trace: no upstream call, no cache
    read or write. *)
Theorem call_tool_rejections (name : jstring) (args : value) (w : env)
    (c : gmap jstring CacheEntry) :
  (name <> js "get_forecast" ->
   call_tool name args w c
     = (Throw (McpError MethodNotFound (js "Unknown tool: " ++ name)), c, []))
  /\ (name = js "get_forecast" ->
      ~ (structured args
         /\ (exists city, get args (js "city") = Some (VStr city))
         /\ (get args (js "days") = Some VUndefined
             \/ exists n, get args (js "days") = Some (VNum n))) ->
      call_tool name args w c
        = (Throw (McpError InvalidParams (js "Invalid forecast arguments")), c, [])).
Proof.
  split.
  - intros Hn. unfold call_tool.
    apply jstring_eqb_neq in Hn. now rewrite Hn.
  - intros -> Hs. unfold call_tool.
    replace (jstring_eqb (js "get_forecast") (js "get_forecast")) with true by reflexivity.
    rewrite <- isValidForecastArgs_spec in Hs.
    destruct (isValidForecastArgs args); [congruence | reflexivity].
Qed.

(** An unknown tool, and [get_forecast] without a city. *)
Lemma call_tool_rejections_witness :
  call_tool (js "unknown_tool") (VObj []) (world 0 (Return sample_forecast)) ∅
    = (Throw (McpError MethodNotFound (js "Unknown tool: unknown_tool")), ∅, [])
  /\ call_tool (js "get_forecast") (VObj [(js "days", VNum (num 3))])
       (world 0 (Return sample_forecast)) ∅
     = (Throw (McpError InvalidParams (js "Invalid forecast arguments")), ∅, []).
Proof.
  split.
  - apply (call_tool_rejections (js "unknown_tool") (VObj [])
             (world 0 (Return sample_forecast)) ∅).
    discriminate.
  - apply (call_tool_rejections (js "get_forecast") (VObj [(js "days", VNum (num 3))])
             (world 0 (Return sample_forecast)) ∅).
    + reflexivity.
    + intros (_ & (city & Hcity) & _). discriminate Hcity.
Defined.

(** C6: a read-resource request whose URI does not match the pattern
    [weather://<city-segment>/current] fails with an invalid-request error
    whose message carries the URI; the cache is left as it was and the trace
    is empty: no upstream call, no cache access. *)
Theorem read_resource_malformed_uri (request_uri : jstring) (w : env)
    (c : gmap jstring CacheEntry) :
  String_match request_uri uri_pattern = None ->
  result_of (read_resource request_uri w c)
    = Throw (McpError InvalidRequest (js "Invalid URI format: " ++ request_uri))
  /\ cache_after (read_resource request_uri w c) = c
  /\ trace_of (read_resource request_uri w c) = [].
Proof.
  intros H. rewrite (read_resource_no_match _ _ _ H). auto.
Qed.

(** The URI without the [/current] suffix, on an empty cache. *)
Lemma read_resource_malformed_uri_witness :
  String_match (js "weather://malformed") uri_pattern = None
  /\ result_of (read_resource (js "weather://malformed") (world 0 (Return sample_conditions)) ∅)
     = Throw (McpError InvalidRequest (js "Invalid URI format: weather://malformed")).
Proof.
  split; [reflexivity|].
  apply (read_resource_malformed_uri (js "weather://malformed")
           (world 0 (Return sample_conditions)) ∅).
  reflexivity.
Defined.

(** C7, the day count 7: the arguments are outside the shape of the data
    model, and the validation accepts them (the handler then clamps). *)
Lemma seven_days_accepted :
  ForecastArgs_shape (forecast_args "London" 7) = false
  /\ isValidForecastArgs (forecast_args "London" 7) = true
  /\ trace_of (call_tool (js "get_forecast") (forecast_args "London" 7)
                 (world 0 (Return sample_forecast)) ∅)
     = [CacheGet (js "forecast_London_5");
        HttpGet (js "forecast")
          (VObj [(js "q", VStr (js "London")); (js "cnt", VNum (num 40))]);
        CacheSet (js "forecast_London_5")].
Proof. repeat split. Qed.

(** C7, amended: the validation accepts what the data model describes, and
    more.  Every value of the shape [{ city: string, days?: number in 1-5 }]
    is accepted; every accepted value is a non-null structured value with a
    string [city] and an absent-or-number [days]; a day count from 1 to 5 is
    used as it is, and one above 5 is accepted too and clamped to 5. *)
Theorem accepted_arguments (args : value) :
  (ForecastArgs_shape args = true -> isValidForecastArgs args = true)
  /\ (isValidForecastArgs args = true ->
      structured args
      /\ (exists city, get args (js "city") = Some (VStr city))
      /\ (get args (js "days") = Some VUndefined
          \/ exists n, get args (js "days") = Some (VNum n)))
  /\ (forall city d,
        structured args ->
        get args (js "city") = Some (VStr city) ->
        get args (js "days") = Some (VNum d) ->
        SFleb (num 1) d = true ->
        isValidForecastArgs args = true
        /\ effective_days (VNum d) = (if SFleb d (num 5) then d else num 5)).
Proof.
  split; [|split].
  - destruct args as [| | | | | |props]; try discriminate. unfold ForecastArgs_shape.
    intros H. apply isValidForecastArgs_spec. cbn [get structured].
    destruct (lookup_prop (js "city") props) as [| | | |city| |]; try discriminate.
    destruct (lookup_prop (js "days") props) as [| | |n| | |]; try discriminate; eauto 6.
  - apply isValidForecastArgs_spec.
  - intros city d Hs Hc Hd H1. split.
    + apply isValidForecastArgs_spec. eauto 6.
    + rewrite effective_days_cases, (at_least_one_truthy d H1). cbn [negb].
      destruct (SFleb d (num 5)) eqn:H5.
      * now rewrite (SFleb_not_gt _ _ H5).
      * destruct (SFltb (num 5) d) eqn:Hgt; [reflexivity|]. exfalso.
        revert H1 H5 Hgt. rewrite num_5.
        destruct d as [s|s| |s m e]; try discriminate; destruct s; try discriminate.
        intros _ H5 Hgt.
        destruct (SFleb_or_gt_finite false m 5629499534213120 e (-50)); congruence.
Qed.

(** The arguments [{ city: "London", days: 7 }]: accepted, clamped to 5. *)
Lemma accepted_arguments_witness :
  let args := forecast_args "London" 7 in
  (structured args /\ SFleb (num 1) (num 7) = true)
  /\ isValidForecastArgs args = true
  /\ effective_days (VNum (num 7)) = num 5.
Proof.
  intros args. split; [split; [exact I | reflexivity]|].
  destruct (accepted_arguments args) as (_ & _ & H).
  exact (H (js "London") (num 7) I eq_refl eq_refl eq_refl).
Defined.

(** C8: a read-resource request that misses the cache (no entry under the
    key, or a stale one) and whose upstream call succeeds returns, and
    stores under the key with the time of the request, the snapshot that
    maps [main.temp] to [temperature], [weather[0].description] to
    [conditions], [main.humidity] to [humidity], [wind.speed] to
    [wind_speed], with a [timestamp] that is the ISO text of the clock read
    while the snapshot is built, whatever the payload holds. *)
Theorem fresh_snapshot_normalizes (request_uri X city : jstring) (w : env)
    (c : gmap jstring CacheEntry)
    (payload temperature conditions humidity wind_speed : value) :
  String_match request_uri uri_pattern = Some [X] ->
  decodeURIComponent X = Some city ->
  let key := js "current_weather_" ++ city in
  (forall e, c !! key = Some e -> cacheDuration <= clock w - timestamp e) ->
  upstream w (js "weather") (VObj [(js "q", VStr city)]) = Return payload ->
  path payload ["main"; "temp"]%string = Some temperature ->
  path payload ["weather"; "0"; "description"]%string = Some conditions ->
  path payload ["main"; "humidity"]%string = Some humidity ->
  path payload ["wind"; "speed"]%string = Some wind_speed ->
  let s := VObj [(js "temperature", temperature);
                 (js "conditions", conditions);
                 (js "humidity", humidity);
                 (js "wind_speed", wind_speed);
                 (js "timestamp", VStr (Date_toISOString (clock_later w)))] in
  read_resource request_uri w c
  = (Return {| uri := request_uri;
               mimeType := js "application/json";
               text := JSON_stringify s |},
     <[key := {| data := s; timestamp := clock w |}]> c,
     [CacheGet key; HttpGet (js "weather") (VObj [(js "q", VStr city)]); CacheSet key]).
Proof.
  intros Hm Hd key Hmiss Hup Ht Hc Hh Hw s.
  rewrite (read_resource_city _ _ _ w c Hm Hd). cbn zeta. fold key.
  apply fresh_entry_None in Hmiss. rewrite Hmiss.
  rewrite fetch_current_cases, Hup. unfold snapshot. rewrite Ht, Hc, Hh, Hw.
  reflexivity.
Qed.

(** San Francisco on an empty cache: the payload's own time [dt] is not
    what the snapshot carries. *)
Lemma fresh_snapshot_normalizes_witness :
  let w := world 1000 (Return sample_conditions) in
  let s := VObj [(js "temperature", VNum (num 15));
                 (js "conditions", VStr (js "light rain"));
                 (js "humidity", VNum (num 81));
                 (js "wind_speed", VNum (num 4));
                 (js "timestamp", VStr (js "1970-01-01T00:00:01.250Z"))] in
  read_resource (js "weather://San%20Francisco/current") w ∅
  = (Return (json_contents (js "weather://San%20Francisco/current") s),
     <[js "current_weather_San Francisco" := {| data := s; timestamp := 1000 |}]> ∅,
     [CacheGet (js "current_weather_San Francisco");
      HttpGet (js "weather") (VObj [(js "q", VStr (js "San Francisco"))]);
      CacheSet (js "current_weather_San Francisco")]).
Proof.
  intros w s.
  apply (fresh_snapshot_normalizes (js "weather://San%20Francisco/current")
           (js "San%20Francisco") (js "San Francisco") w ∅ sample_conditions
           (VNum (num 15)) (VStr (js "light rain")) (VNum (num 81)) (VNum (num 4)));
    try reflexivity.
  intros e He. rewrite lookup_empty in He. discriminate He.
Defined.

(** C9: failures are never cached.  A request whose upstream call fails
    leaves the cache as it was; so a later request for the same key calls
    the upstream again; and every entry the server ever stores, from an
    empty cache on, holds what a successful upstream call returned to one of
    the requests handled. *)
Theorem failures_are_never_cached :
  (forall rq w c,
      calls_fail w (trace_of (handle rq w c)) ->
      cache_after (handle rq w c) = c)
  /\ (forall rq rq' w w' c,
        upstream_calls (trace_of (handle rq w c)) <> 0%nat ->
        calls_fail w (trace_of (handle rq w c)) ->
        request_key rq' = request_key rq ->
        clock w <= clock w' ->
        upstream_calls (trace_of (handle rq' w' (cache_after (handle rq w c)))) = 1%nat)
  /\ (forall steps key entry,
        serve steps ∅ !! key = Some entry ->
        exists rq w, In (rq, w) steps /\ fetched_entry w key entry).
Proof.
  assert (Hkeep : forall rq w c,
             calls_fail w (trace_of (handle rq w c)) -> cache_after (handle rq w c) = c).
  { intros rq w c Hfail. pose proof (handle_cases rq w c) as H.
    destruct (request_key rq) as [key|]; [|now destruct H].
    destruct (fresh_entry (c !! key) (clock w)); [now destruct H|].
    destruct H as (url & params & [[_ H] | (payload & entry & Hup & _ & Ht & _)]); [exact H|].
    destruct (Hfail url params) as [e He]; [rewrite Ht; cbn; auto | congruence]. }
  split; [exact Hkeep|]. split.
  - intros rq rq' w w' c Hcalls Hfail Hkey Hle.
    rewrite (Hkeep rq w c Hfail).
    rewrite handle_upstream_calls in Hcalls. rewrite handle_upstream_calls, Hkey.
    destruct (request_key rq) as [key|]; [|congruence].
    destruct (fresh_entry (c !! key) (clock w)) eqn:Hmiss; [congruence|].
    now rewrite (fresh_entry_None_later _ _ _ Hmiss Hle).
  - intros steps key entry H.
    apply serve_provenance in H as [H | H]; [|exact H].
    rewrite lookup_empty in H. discriminate H.
Qed.

(** The upstream is down for a forecast of London, then up again: the cache
    stays empty, the second request calls the upstream, and the entry then
    stored is the list it returned. *)
Lemma failures_are_never_cached_witness :
  let rq := CallTool (js "get_forecast") (VObj [(js "city", VStr (js "London"))]) in
  let down := world 0 (Throw (AxiosError None (js "connect ECONNREFUSED"))) in
  let up := world 1000 (Return sample_forecast) in
  cache_after (handle rq down ∅) = ∅
  /\ upstream_calls (trace_of (handle rq up (cache_after (handle rq down ∅)))) = 1%nat
  /\ forall key entry,
       serve [(rq, down); (rq, up)] ∅ !! key = Some entry ->
       exists rq' w, In (rq', w) [(rq, down); (rq, up)] /\ fetched_entry w key entry.
Proof.
  intros rq down up.
  destruct failures_are_never_cached as (Hkeep & Hagain & Hstored).
  assert (Hfail : calls_fail down (trace_of (handle rq down ∅))).
  { intros url params _. eexists. reflexivity. }
  split; [exact (Hkeep rq down ∅ Hfail)|]. split.
  - apply (Hagain rq rq down up ∅); [vm_compute; discriminate | exact Hfail | reflexivity |].
    vm_compute. discriminate.
  - intros key entry. apply Hstored.
Defined.

(** C10, a segment with a line feed: [.] does not match it, the URI is
    refused although the segment is not empty. *)
Lemma segment_with_line_feed_rejected :
  let X := js "a" ++ [10%N] ++ js "b" in
  let request_uri := js "weather://" ++ X ++ js "/current" in
  X <> []
  /\ String_match request_uri uri_pattern = None
  /\ read_resource request_uri (world 0 (Return sample_conditions)) ∅
     = (Throw (McpError InvalidRequest (js "Invalid URI format: " ++ request_uri)), ∅, []).
Proof. repeat split. discriminate. Qed.

(** C10, amended: every URI [weather://X/current] whose [X] is not empty
    and holds no line terminator (LF, CR, U+2028, U+2029) matches the
    pattern, and the capture is the whole of [X], slashes included.  When
    [X] decodes, the decoded city is what the cache key and the upstream
    query are made of; when it does not, [decodeURIComponent] throws before
    the cache and the upstream are touched. *)
Theorem uri_segment_accepted (X : jstring) (w : env) (c : gmap jstring CacheEntry) :
  X <> [] ->
  no_line_terminator X = true ->
  let request_uri := js "weather://" ++ X ++ js "/current" in
  String_match request_uri uri_pattern = Some [X]
  /\ (forall city,
        decodeURIComponent X = Some city ->
        let key := js "current_weather_" ++ city in
        let call := HttpGet (js "weather") (VObj [(js "q", VStr city)]) in
        exists rest,
          trace_of (read_resource request_uri w c) = CacheGet key :: rest
          /\ (fresh_entry (c !! key) (clock w) = None ->
              rest = [call] \/ rest = [call; CacheSet key])
          /\ (fresh_entry (c !! key) (clock w) <> None -> rest = []))
  /\ (decodeURIComponent X = None ->
      read_resource request_uri w c = (Throw URIError, c, [])).
Proof.
  intros HX Hall request_uri.
  assert (Hm : String_match request_uri uri_pattern = Some [X]).
  { apply uri_pattern_spec. exists X. auto. }
  split; [exact Hm|]. split.
  - intros city Hd key call.
    rewrite (read_resource_city _ _ _ w c Hm Hd). cbn zeta. fold key.
    destruct (fresh_entry (c !! key) (clock w)) as [hit|].
    + exists []. split; [reflexivity|]. split; [discriminate | reflexivity].
    + rewrite fetch_current_cases. fold call.
      destruct (upstream w (js "weather") (VObj [(js "q", VStr city)])) as [payload|e].
      * destruct (snapshot payload (clock_later w));
          eexists; (split; [reflexivity|]); split; auto; congruence.
      * exists [call]. split; [|split; [auto | congruence]].
        destruct e as [| resp msg | | |]; try reflexivity.
        destruct (error_text resp msg); reflexivity.
  - intros Hd. unfold read_resource. rewrite Hm. cbn [nth]. now rewrite Hd.
Qed.

(** The two URIs [weather://a/b/current] and [weather://a/current/current]:
    the segments are [a/b] and [a/current], and so are the cities. *)
Lemma uri_segment_accepted_witness :
  let w := world 0 (Return sample_conditions) in
  ((js "a/b" <> [] /\ no_line_terminator (js "a/b") = true)
   /\ (js "a/current" <> [] /\ no_line_terminator (js "a/current") = true))
  /\ String_match (js "weather://a/b/current") uri_pattern = Some [js "a/b"]
  /\ String_match (js "weather://a/current/current") uri_pattern = Some [js "a/current"]
  /\ (exists rest,
        trace_of (read_resource (js "weather://a/b/current") w ∅)
        = CacheGet (js "current_weather_a/b") :: rest)
  /\ (exists rest,
        trace_of (read_resource (js "weather://a/current/current") w ∅)
        = CacheGet (js "current_weather_a/current") :: rest).
Proof.
  intros w.
  assert (H1 : js "a/b" <> [] /\ no_line_terminator (js "a/b") = true)
    by (split; [discriminate | reflexivity]).
  assert (H2 : js "a/current" <> [] /\ no_line_terminator (js "a/current") = true)
    by (split; [discriminate | reflexivity]).
  split; [split; assumption|].
  destruct (uri_segment_accepted (js "a/b") w ∅ (proj1 H1) (proj2 H1)) as (Hm1 & Hc1 & _).
  destruct (uri_segment_accepted (js "a/current") w ∅ (proj1 H2) (proj2 H2))
    as (Hm2 & Hc2 & _).
  split; [exact Hm1|]. split; [exact Hm2|]. split.
  - destruct (Hc1 (js "a/b") eq_refl) as (rest & Ht & _). exists rest. exact Ht.
  - destruct (Hc2 (js "a/current") eq_refl) as (rest & Ht & _). exists rest. exact Ht.
Defined.

(** ** Further properties of the handlers *)

(** A request leaves the entries of the other keys alone. *)
Lemma handle_frame (rq : request) (w : env) (c : gmap jstring CacheEntry) (key : jstring) :
  request_key rq <> Some key ->
  cache_after (handle rq w c) !! key = c !! key.
Proof.
  intros Hne. pose proof (handle_cases rq w c) as H.
  destruct (request_key rq) as [key0|]; [|now destruct H as [_ ->]].
  destruct (fresh_entry (c !! key0) (clock w)); [now destruct H as [_ ->]|].
  destruct H as (url & params & [[_ ->] | (payload & entry & _ & _ & _ & ->)]);
    [reflexivity|].
  apply lookup_insert_ne. congruence.
Qed.

(** The key of a read-resource request and the key of a tool call begin
    with different letters. *)
Lemma resource_key_prefix (request_uri key : jstring) :
  request_key (ReadResource request_uri) = Some key ->
  exists city, key = js "current_weather_" ++ city.
Proof.
  unfold request_key. destruct (String_match request_uri uri_pattern); [|discriminate].
  destruct (decodeURIComponent _) as [city|]; [|discriminate].
  intros [= <-]. eauto.
Qed.

Lemma forecast_key_prefix (name : jstring) (args : value) (key : jstring) :
  request_key (CallTool name args) = Some key ->
  exists city days, key = forecast_key city days.
Proof.
  unfold request_key. destruct (_ && _); [|discriminate].
  destruct (get args (js "city")); [|discriminate].
  destruct (get args (js "days")); [|discriminate].
  intros [= <-]. eauto.
Qed.

(** X1: a request reads and writes the cache at its own key only: every
    cache access of its trace is at that key, and the entry of any other key
    is after the request what it was before. *)
Theorem request_touches_own_key (rq : request) (w : env) (c : gmap jstring CacheEntry)
    (other : jstring) :
  request_key rq <> Some other ->
  cache_after (handle rq w c) !! other = c !! other
  /\ ~ In (CacheGet other) (trace_of (handle rq w c))
  /\ ~ In (CacheSet other) (trace_of (handle rq w c)).
Proof.
  intros Hne. split; [now apply handle_frame|].
  pose proof (handle_cases rq w c) as H.
  destruct (request_key rq) as [key|]; [|destruct H as [-> _]; cbn; tauto].
  assert (Hk : key <> other) by congruence.
  destruct (fresh_entry (c !! key) (clock w)).
  - destruct H as [-> _]. cbn. split; intros [[=]|[]]; congruence.
  - destruct H as (url & params & [[-> _] | (payload & entry & _ & _ & -> & _)]); cbn;
      split; intros H; repeat (destruct H as [H|H]; [congruence|]); exact H.
Qed.

(** Paris is fetched, then paris: the second request neither reads nor
    changes the entry of the first. *)
Lemma request_touches_own_key_witness :
  let w := world 0 (Return sample_conditions) in
  let c := cache_after (read_resource (js "weather://Paris/current") w ∅) in
  let rq := ReadResource (js "weather://paris/current") in
  request_key rq <> Some (js "current_weather_Paris")
  /\ cache_after (handle rq w c) !! js "current_weather_Paris" = c !! js "current_weather_Paris"
  /\ ~ In (CacheGet (js "current_weather_Paris")) (trace_of (handle rq w c)).
Proof.
  intros w c rq.
  assert (Hne : request_key rq <> Some (js "current_weather_Paris")) by (vm_compute; discriminate).
  split; [exact Hne|].
  destruct (request_touches_own_key rq w c (js "current_weather_Paris") Hne) as (H1 & H2 & _).
  split; assumption.
Defined.

(** X2: the keys of the two handlers never meet: whatever the URI and
    whatever the tool arguments, the key of a read-resource request is not
    the key of a tool call, so neither handler reads or overwrites an entry
    of the other. *)
Theorem resource_and_forecast_keys_differ (request_uri name : jstring) (args : value)
    (k1 k2 : jstring) (w : env) (c : gmap jstring CacheEntry) :
  request_key (ReadResource request_uri) = Some k1 ->
  request_key (CallTool name args) = Some k2 ->
  k1 <> k2
  /\ cache_after (handle (CallTool name args) w c) !! k1 = c !! k1
  /\ cache_after (handle (ReadResource request_uri) w c) !! k2 = c !! k2.
Proof.
  intros H1 H2.
  assert (Hne : k1 <> k2).
  { apply resource_key_prefix in H1 as [city ->].
    apply forecast_key_prefix in H2 as (city' & days & ->). discriminate. }
  split; [exact Hne|]. split; apply handle_frame; congruence.
Qed.

(** A city named [forecast_London_3] does not reach the forecast of
    London. *)
Lemma resource_and_forecast_keys_differ_witness :
  let request_uri := js "weather://forecast_London_3/current" in
  let args := VObj [(js "city", VStr (js "London"))] in
  (request_key (ReadResource request_uri) = Some (js "current_weather_forecast_London_3")
   /\ request_key (CallTool (js "get_forecast") args) = Some (js "forecast_London_3"))
  /\ js "current_weather_forecast_London_3" <> js "forecast_London_3".
Proof.
  intros request_uri args.
  assert (H1 : request_key (ReadResource request_uri)
               = Some (js "current_weather_forecast_London_3")) by reflexivity.
  assert (H2 : request_key (CallTool (js "get_forecast") args)
               = Some (js "forecast_London_3")) by reflexivity.
  split; [split; assumption|].
  exact (proj1 (resource_and_forecast_keys_differ request_uri (js "get_forecast") args _ _
                  (world 0 (Return sample_forecast)) ∅ H1 H2)).
Defined.

(** X3: the cache only grows, by one entry a request at most: no request
    removes a key, and after any sequence of requests every key that was in
    the cache is still there and the cache has at most one entry more per
    request. *)
Theorem cache_only_grows (steps : list (request * env)) (c : gmap jstring CacheEntry) :
  (forall key, is_Some (c !! key) -> is_Some (serve steps c !! key))
  /\ (size (serve steps c) <= size c + length steps)%nat.
Proof.
  revert c. induction steps as [|[rq w] steps IH]; intros c; cbn [serve length].
  - split; [auto | lia].
  - assert (Hstep : (forall key, is_Some (c !! key) ->
                                 is_Some (cache_after (handle rq w c) !! key))
                    /\ (size (cache_after (handle rq w c)) <= S (size c))%nat).
    { pose proof (handle_cases rq w c) as H.
      destruct (request_key rq) as [key0|]; [|destruct H as [_ ->]; auto].
      destruct (fresh_entry (c !! key0) (clock w)); [destruct H as [_ ->]; auto|].
      destruct H as (url & params & [[_ ->] | (payload & entry & _ & _ & _ & ->)]); [auto|].
      split.
      - intros key Hin. destruct (decide (key0 = key)) as [->|Hne].
        + rewrite lookup_insert_eq. eauto.
        + now rewrite lookup_insert_ne.
      - destruct (c !! key0) eqn:Hk.
        + rewrite map_size_insert_Some by eauto. lia.
        + rewrite map_size_insert_None by assumption. lia. }
    destruct Hstep as [Hkeep Hsize].
    destruct (IH (cache_after (handle rq w c))) as [IHkeep IHsize].
    split; [auto | lia].
Qed.

Lemma plain_app (a b : jstring) : plain a -> plain b -> plain (a ++ b).
Proof. unfold plain. rewrite in_app_iff. tauto. Qed.

Lemma plain_firstn (n : nat) (s : jstring) : plain s -> plain (firstn n s).
Proof.
  unfold plain. intros H Hin. apply H. rewrite <- (firstn_skipn n s).
  apply in_or_app. now left.
Qed.

Lemma plain_skipn (n : nat) (s : jstring) : plain s -> plain (skipn n s).
Proof.
  unfold plain. intros H Hin. apply H. rewrite <- (firstn_skipn n s).
  apply in_or_app. now right.
Qed.

Lemma plain_zeros (n : Z) : plain (zeros n).
Proof. unfold plain, zeros. intros H. apply repeat_spec in H. discriminate. Qed.

Lemma plain_digits_fuel (fuel : nat) (n : Z) (acc : jstring) :
  plain acc -> plain (digits_fuel fuel n acc).
Proof.
  revert n acc. induction fuel as [|fuel IH]; intros n acc Hacc; cbn [digits_fuel]; [exact Hacc|].
  assert (Hnew : plain (Z.to_N (48 + n mod 10) :: acc)).
  { intros [H|H]; [|exact (Hacc H)].
    pose proof (Z.mod_pos_bound n 10 ltac:(lia)) as Hr. unfold underscore in H. lia. }
  destruct (n <? 10); [exact Hnew | now apply IH].
Qed.

Lemma plain_decimal (n : Z) : plain (decimal n).
Proof. apply plain_digits_fuel. intros []. Qed.

Lemma plain_exponent_part (n : Z) : plain (exponent_part n).
Proof.
  unfold exponent_part. apply plain_app; [vm_compute; intuition discriminate|].
  apply plain_app; [destruct (0 <=? n - 1); vm_compute; intuition discriminate|].
  apply plain_decimal.
Qed.

Lemma plain_format_digits (ds : jstring) (n : Z) : plain ds -> plain (format_digits ds n).
Proof.
  intros Hds. unfold format_digits. cbv zeta.
  assert (Hdot : plain (js ".")) by (vm_compute; intuition discriminate).
  assert (Hzero : plain (js "0.")) by (vm_compute; intuition discriminate).
  repeat match goal with |- plain (if ?b then _ else _) => destruct b end;
    repeat first [ assumption | apply plain_zeros | apply plain_exponent_part
                 | apply plain_firstn | apply plain_skipn | apply plain_app ].
Qed.

Lemma plain_Number_toString (x : number) : plain (Number_toString x).
Proof.
  destruct x as [s|s| |s m e]; cbn [Number_toString].
  - vm_compute; intuition discriminate.
  - destruct s; vm_compute; intuition discriminate.
  - vm_compute; intuition discriminate.
  - unfold shortest_digits. destruct (round_interval m e) as [[[lo v] hi] den].
    destruct (shortest_from _ _ _ _ _ _ _ _) as [d n'].
    apply plain_app; [destruct s; vm_compute; intuition discriminate|].
    apply plain_format_digits, plain_decimal.
Qed.

(** The last occurrence of a separator splits a string in one way. *)
Lemma split_at_last (x : N) (a b s t : jstring) :
  ~ In x s -> ~ In x t -> a ++ x :: s = b ++ x :: t -> a = b /\ s = t.
Proof.
  intros Hs Ht. revert b. induction a as [|y a IH]; intros [|z b] H; cbn in H.
  - injection H as ->. auto.
  - injection H as <- ->. elim Hs. apply in_or_app. right. now left.
  - injection H as -> <-. elim Ht. apply in_or_app. right. now left.
  - injection H as -> H. destruct (IH b H) as [-> ->]. auto.
Qed.

(** X4: two tool calls share a cache entry only when they name the same
    city and their effective day counts print the same: the key
    [forecast_<city>_<days>] determines the city and the text of the day
    count, underscores in the city notwithstanding. *)
Theorem forecast_key_determines_city (city1 city2 : jstring) (d1 d2 : number) :
  forecast_key (VStr city1) d1 = forecast_key (VStr city2) d2 ->
  city1 = city2 /\ Number_toString d1 = Number_toString d2.
Proof.
  unfold forecast_key. cbn [text_of]. intros H.
  apply app_inv_head in H.
  change (js "_") with [underscore] in H. cbn [app] in H.
  apply split_at_last in H; [exact H | apply plain_Number_toString ..].
Qed.

(** The city [a_1] asked for 2 days and the city [a] cannot be confused:
    the key [forecast_a_1_2] is the key of [a_1] alone. *)
Lemma forecast_key_determines_city_witness :
  forecast_key (VStr (js "a_1")) (num 2) = js "forecast_a_1_2"
  /\ forall city d, forecast_key (VStr city) d = forecast_key (VStr (js "a_1")) (num 2) ->
                    city = js "a_1".
Proof.
  split; [reflexivity|].
  intros city d H. exact (proj1 (forecast_key_determines_city city (js "a_1") d (num 2) H)).
Defined.

(** Every number but NaN is comparable with 5. *)
Lemma not_above_five (d : number) :
  d <> S754_nan -> SFltb (num 5) d = false -> SFleb d (num 5) = true.
Proof.
  rewrite num_5. intros Hnan H.
  destruct d as [s|s| |s m e]; try congruence; try (destruct s; reflexivity || discriminate H).
  destruct s; [reflexivity|].
  destruct (SFleb_or_gt_finite false m 5629499534213120 e (-50)); congruence.
Qed.

(** X5: whatever day count passes the validation, the effective day count
    is a number that is not NaN, not zero and not above 5. *)
Theorem effective_days_bounded (args days_arg : value) :
  isValidForecastArgs args = true ->
  get args (js "days") = Some days_arg ->
  effective_days days_arg <> S754_nan
  /\ num_truthy (effective_days days_arg) = true
  /\ SFleb (effective_days days_arg) (num 5) = true.
Proof.
  intros Hv Hd. apply isValidForecastArgs_spec in Hv as (_ & _ & [H | [d H]]);
    rewrite Hd in H; injection H as ->.
  - repeat split. discriminate.
  - rewrite effective_days_cases.
    destruct (num_truthy d) eqn:Ht; cbn [negb]; [|repeat split; discriminate].
    destruct (SFltb (num 5) d) eqn:H5; [repeat split; discriminate|].
    assert (Hnan : d <> S754_nan) by (intros ->; discriminate).
    split; [exact Hnan|]. split; [exact Ht|]. now apply not_above_five.
Qed.

(** The day counts 1000000, 0 and -3: the first becomes 5, the second 3,
    the third stays. *)
Lemma effective_days_bounded_witness :
  (isValidForecastArgs (forecast_args "London" 1000000) = true
   /\ get (forecast_args "London" 1000000) (js "days") = Some (VNum (num 1000000)))
  /\ SFleb (effective_days (VNum (num 1000000))) (num 5) = true
  /\ effective_days (VNum (num 1000000)) = num 5.
Proof.
  split; [split; reflexivity|].
  split; [|reflexivity].
  exact (proj2 (proj2 (effective_days_bounded (forecast_args "London" 1000000)
                         (VNum (num 1000000)) eq_refl eq_refl))).
Defined.

(** The key of a read-resource request, by its URI. *)
Lemma request_key_read (request_uri key : jstring) :
  request_key (ReadResource request_uri) = Some key ->
  exists X city,
    String_match request_uri uri_pattern = Some [X]
    /\ decodeURIComponent X = Some city
    /\ key = js "current_weather_" ++ city.
Proof.
  unfold request_key.
  destruct (String_match request_uri uri_pattern) as [caps|] eqn:Hm; [|discriminate].
  apply uri_pattern_spec in Hm as (X & -> & _). cbn [nth].
  destruct (decodeURIComponent X) as [city|] eqn:Hd; [|discriminate].
  intros [= <-]. eauto.
Qed.

(** The key of a tool call, by its arguments. *)
Lemma request_key_tool (name : jstring) (args : value) (key : jstring) :
  request_key (CallTool name args) = Some key ->
  name = js "get_forecast"
  /\ isValidForecastArgs args = true
  /\ exists city days_arg,
       get args (js "city") = Some city
       /\ get args (js "days") = Some days_arg
       /\ key = forecast_key city (effective_days days_arg).
Proof.
  unfold request_key.
  destruct (jstring_eqb name (js "get_forecast")) eqn:Hn; [|discriminate].
  destruct (isValidForecastArgs args) eqn:Hv; [|discriminate]. cbn [andb].
  apply jstring_eqb_eq in Hn.
  destruct (get args (js "city")) as [city|]; [|discriminate].
  destruct (get args (js "days")) as [days_arg|]; [|discriminate].
  intros [= <-]. eauto 8.
Qed.

(** X6: two URIs whose segments decode to the same city share one cache
    entry: after a read of the first has fetched and answered, a read of the
    second handled less than [cacheDuration] later is served from the cache,
    with the same text and under its own URI, without an upstream call. *)
Theorem aliased_uris_share_entry (uri1 uri2 key : jstring) (w1 w2 : env)
    (c c1 : gmap jstring CacheEntry) (r1 : ResourceContents) (t1 : list event) :
  request_key (ReadResource uri1) = Some key ->
  request_key (ReadResource uri2) = Some key ->
  read_resource uri1 w1 c = (Return r1, c1, t1) ->
  upstream_calls t1 <> 0%nat ->
  clock w2 - clock w1 < cacheDuration ->
  read_resource uri2 w2 c1
  = (Return {| uri := uri2; mimeType := mimeType r1; text := text r1 |}, c1, [CacheGet key]).
Proof.
  intros Hk1 Hk2 H1 Hcalls Hlt.
  apply request_key_read in Hk1 as (X1 & city & Hm1 & Hd1 & ->).
  apply request_key_read in Hk2 as (X2 & city' & Hm2 & Hd2 & Heq).
  apply app_inv_head in Heq. subst city'.
  rewrite (read_resource_city _ _ _ w1 c Hm1 Hd1) in H1. cbn zeta in H1.
  set (key := js "current_weather_" ++ city) in *.
  destruct (fresh_entry (c !! key) (clock w1)) as [hit|].
  { injection H1 as <- <- <-. now elim Hcalls. }
  rewrite fetch_current_cases in H1.
  destruct (upstream w1 (js "weather") (VObj [(js "q", VStr city)])) as [payload|e].
  2: { destruct e as [| resp msg | | |]; try discriminate.
       destruct (error_text resp msg); discriminate. }
  destruct (snapshot payload (clock_later w1)) as [s|]; [|discriminate].
  injection H1 as <- <- <-.
  rewrite (read_resource_city _ _ _ w2 _ Hm2 Hd2). cbn zeta. fold key.
  assert (Hhit : fresh_entry (<[key := {| data := s; timestamp := clock w1 |}]> c !! key)
                   (clock w2) = Some {| data := s; timestamp := clock w1 |}).
  { apply fresh_entry_Some. split; [apply lookup_insert_eq | exact Hlt]. }
  now rewrite Hhit.
Qed.

(** [San%20Francisco] is fetched; [San Francisco] is then served from the
    cache under its own URI. *)
Lemma aliased_uris_share_entry_witness :
  let uri1 := js "weather://San%20Francisco/current" in
  let uri2 := js "weather://San Francisco/current" in
  let w1 := world 0 (Return sample_conditions) in
  let w2 := world 1000 (Throw (OtherError (js "not called"))) in
  let first := read_resource uri1 w1 ∅ in
  (request_key (ReadResource uri1) = request_key (ReadResource uri2)
   /\ upstream_calls (trace_of first) <> 0%nat
   /\ clock w2 - clock w1 < cacheDuration)
  /\ exists r1,
       result_of first = Return r1
       /\ read_resource uri2 w2 (cache_after first)
          = (Return {| uri := uri2; mimeType := mimeType r1; text := text r1 |},
             cache_after first, [CacheGet (js "current_weather_San Francisco")]).
Proof.
  intros uri1 uri2 w1 w2 first.
  set (r1 := json_contents uri1
               (VObj [(js "temperature", VNum (num 15));
                      (js "conditions", VStr (js "light rain"));
                      (js "humidity", VNum (num 81));
                      (js "wind_speed", VNum (num 4));
                      (js "timestamp", VStr (js "1970-01-01T00:00:00.250Z"))])).
  assert (Hfirst : first = (Return r1, cache_after first, trace_of first))
    by (vm_compute; reflexivity).
  assert (Hcalls : upstream_calls (trace_of first) <> 0%nat) by (vm_compute; discriminate).
  assert (Hlt : clock w2 - clock w1 < cacheDuration) by (vm_compute; reflexivity).
  split; [split; [reflexivity | split; assumption]|].
  exists r1. split; [vm_compute; reflexivity|].
  exact (aliased_uris_share_entry uri1 uri2 (js "current_weather_San Francisco") w1 w2 ∅ _ r1 _
           eq_refl eq_refl Hfirst Hcalls Hlt).
Defined.

(** X7: two tool calls with the same city and the same effective day count
    share one cache entry: after the first has fetched and answered without
    an error flag, the second, handled less than [cacheDuration] later, gets
    the same response from the cache without an upstream call.  So do the
    day counts 5 and 7, or an absent day count and 3. *)
Theorem forecast_hit_is_shared (args1 args2 : value) (key : jstring) (w1 w2 : env)
    (c c1 : gmap jstring CacheEntry) (r1 : ToolResult) (t1 : list event) :
  request_key (CallTool (js "get_forecast") args1) = Some key ->
  request_key (CallTool (js "get_forecast") args2) = Some key ->
  call_tool (js "get_forecast") args1 w1 c = (Return r1, c1, t1) ->
  upstream_calls t1 <> 0%nat ->
  isError r1 = false ->
  clock w2 - clock w1 < cacheDuration ->
  call_tool (js "get_forecast") args2 w2 c1 = (Return r1, c1, [CacheGet key]).
Proof.
  intros Hk1 Hk2 H1 Hcalls Herr Hlt.
  apply request_key_tool in Hk1 as (_ & Hv1 & city1 & days1 & Hc1 & Hd1 & ->).
  apply request_key_tool in Hk2 as (_ & Hv2 & city2 & days2 & Hc2 & Hd2 & Heq).
  rewrite (call_tool_valid _ _ _ w1 c Hv1 Hc1 Hd1) in H1. cbn zeta in H1.
  rewrite (call_tool_valid _ _ _ w2 c1 Hv2 Hc2 Hd2). cbn zeta. rewrite <- Heq.
  set (key := forecast_key city1 (effective_days days1)) in *.
  destruct (fresh_entry (c !! key) (clock w1)) as [hit|].
  { injection H1 as <- <- <-. now elim Hcalls. }
  rewrite fetch_forecast_cases in H1.
  destruct (upstream w1 (js "forecast") _) as [payload|e].
  2: { destruct e as [| resp msg | | |]; try discriminate.
       destruct (error_text resp msg); [|discriminate].
       injection H1 as <- <- <-. discriminate Herr. }
  destruct (get payload (js "list")) as [list|]; [|discriminate].
  injection H1 as <- <- <-.
  assert (Hhit : fresh_entry (<[key := {| data := list; timestamp := clock w1 |}]> c !! key)
                   (clock w2) = Some {| data := list; timestamp := clock w1 |}).
  { apply fresh_entry_Some. split; [apply lookup_insert_eq | exact Hlt]. }
  now rewrite Hhit.
Qed.

(** Five days of London are fetched; seven days of London are then served
    from the same entry. *)
Lemma forecast_hit_is_shared_witness :
  let args1 := forecast_args "London" 5 in
  let args2 := forecast_args "London" 7 in
  let w1 := world 0 (Return sample_forecast) in
  let w2 := world 1000 (Throw (OtherError (js "not called"))) in
  let first := call_tool (js "get_forecast") args1 w1 ∅ in
  (request_key (CallTool (js "get_forecast") args1)
   = request_key (CallTool (js "get_forecast") args2)
   /\ upstream_calls (trace_of first) <> 0%nat
   /\ clock w2 - clock w1 < cacheDuration)
  /\ exists r1,
       result_of first = Return r1 /\ isError r1 = false
       /\ call_tool (js "get_forecast") args2 w2 (cache_after first)
          = (Return r1, cache_after first, [CacheGet (js "forecast_London_5")]).
Proof.
  intros args1 args2 w1 w2 first.
  set (r1 := json_text (VArr [VObj [(js "dt", VNum (num 1700000000))]])).
  assert (Hfirst : first = (Return r1, cache_after first, trace_of first))
    by (vm_compute; reflexivity).
  assert (Hcalls : upstream_calls (trace_of first) <> 0%nat) by (vm_compute; discriminate).
  assert (Hlt : clock w2 - clock w1 < cacheDuration) by (vm_compute; reflexivity).
  split; [split; [reflexivity | split; assumption]|].
  exists r1. split; [vm_compute; reflexivity|]. split; [reflexivity|].
  exact (forecast_hit_is_shared args1 args2 (js "forecast_London_5") w1 w2 ∅ _ r1 _
           eq_refl eq_refl Hfirst Hcalls eq_refl Hlt).
Defined.

(** A property read fails on [undefined] and [null] and on nothing else. *)
Lemma get_None (v : value) (k : jstring) : get v k = None <-> nullish v = true.
Proof. destruct v; cbn; split; congruence. Qed.

(** The snapshot cannot be built exactly when the answer is unreadable. *)
Lemma snapshot_None (payload : value) (t : Z) :
  snapshot payload t = None <-> unreadable payload.
Proof.
  unfold snapshot, unreadable, nullish_at, path. cbn [fold_left].
  destruct (get payload (js "main")) as [main|] eqn:Hmain.
  2: { apply get_None in Hmain. tauto. }
  assert (Hp : nullish payload = false).
  { destruct (nullish payload) eqn:Hn; [|reflexivity].
    apply get_None with (k := js "main") in Hn. congruence. }
  destruct (get main (js "temp")) as [temp|] eqn:Htemp.
  2: { apply get_None in Htemp. tauto. }
  assert (Hm : nullish main = false).
  { destruct (nullish main) eqn:Hn; [|reflexivity].
    apply get_None with (k := js "temp") in Hn. congruence. }
  destruct (get main (js "humidity")) as [humidity|] eqn:Hhum.
  2: { apply get_None in Hhum. congruence. }
  destruct (get payload (js "weather")) as [weather|] eqn:Hweather.
  2: { apply get_None in Hweather. congruence. }
  destruct (get weather (js "0")) as [first|] eqn:Hfirst.
  2: { apply get_None in Hfirst. tauto. }
  assert (Hw : nullish weather = false).
  { destruct (nullish weather) eqn:Hn; [|reflexivity].
    apply get_None with (k := js "0") in Hn. congruence. }
  destruct (get first (js "description")) as [description|] eqn:Hdesc.
  2: { apply get_None in Hdesc. tauto. }
  assert (Hf : nullish first = false).
  { destruct (nullish first) eqn:Hn; [|reflexivity].
    apply get_None with (k := js "description") in Hn. congruence. }
  destruct (get payload (js "wind")) as [wind|] eqn:Hwind.
  2: { apply get_None in Hwind. congruence. }
  destruct (get wind (js "speed")) as [speed|] eqn:Hspeed.
  2: { apply get_None in Hspeed. tauto. }
  assert (Hwi : nullish wind = false).
  { destruct (nullish wind) eqn:Hn; [|reflexivity].
    apply get_None with (k := js "speed") in Hn. congruence. }
  split; [discriminate|]. intros [H|[H|[H|[H|H]]]]; congruence.
Qed.

(** X8: an entry that is [cacheDuration] old or older is never served: the
    request for its key calls the upstream exactly once; when the call and
    the reading of its answer succeed the entry is replaced by one holding
    the new answer and stamped with the time of this request, otherwise the
    old entry stays where it was. *)
Theorem expired_entry_is_refetched (rq : request) (key : jstring) (w : env)
    (c : gmap jstring CacheEntry) (old : CacheEntry) :
  request_key rq = Some key ->
  c !! key = Some old ->
  cacheDuration <= clock w - timestamp old ->
  upstream_calls (trace_of (handle rq w c)) = 1%nat
  /\ (cache_after (handle rq w c) = c
      \/ exists entry,
           cache_after (handle rq w c) = <[key := entry]> c
           /\ timestamp entry = clock w
           /\ fetched_entry w key entry).
Proof.
  intros Hk Hold Hstale.
  assert (Hmiss : fresh_entry (c !! key) (clock w) = None).
  { apply fresh_entry_None. intros e He. rewrite Hold in He. injection He as <-. exact Hstale. }
  split; [now rewrite handle_upstream_calls, Hk, Hmiss|].
  pose proof (handle_cases rq w c) as H. rewrite Hk, Hmiss in H.
  destruct H as (url & params & [[_ H] | (payload & entry & _ & Hf & _ & H)]); [auto|].
  right. exists entry. split; [exact H|]. split; [apply Hf | exact Hf].
Qed.

(** San Francisco is fetched at time 0 and read again exactly five minutes
    later: the upstream is called again and the entry now bears the later
    time. *)
Lemma expired_entry_is_refetched_witness :
  let rq := ReadResource (js "weather://San Francisco/current") in
  let key := js "current_weather_San Francisco" in
  let w1 := world 0 (Return sample_conditions) in
  let w2 := world 300000 (Return sample_conditions) in
  let c1 := cache_after (handle rq w1 ∅) in
  (exists old, c1 !! key = Some old /\ cacheDuration <= clock w2 - timestamp old)
  /\ upstream_calls (trace_of (handle rq w2 c1)) = 1%nat
  /\ (timestamp <$> cache_after (handle rq w2 c1) !! key) = Some 300000.
Proof.
  intros rq key w1 w2 c1.
  set (old := {| data := VObj [(js "temperature", VNum (num 15));
                               (js "conditions", VStr (js "light rain"));
                               (js "humidity", VNum (num 81));
                               (js "wind_speed", VNum (num 4));
                               (js "timestamp", VStr (js "1970-01-01T00:00:00.250Z"))];
                 timestamp := 0 |}).
  assert (Hold : c1 !! key = Some old) by (vm_compute; reflexivity).
  assert (Hstale : cacheDuration <= clock w2 - timestamp old) by (vm_compute; discriminate).
  split; [exists old; split; assumption|].
  destruct (expired_entry_is_refetched rq key w2 c1 old eq_refl Hold Hstale) as [Hcalls _].
  split; [exact Hcalls | vm_compute; reflexivity].
Defined.

(** X9: a successful answer of the upstream in which [main], [weather],
    [weather[0]] or [wind] is missing (or that is itself [null]) makes the
    read-resource request fail with a TypeError after the upstream call, and
    nothing is cached; a successful answer that is [undefined] or [null]
    does the same to a tool call. *)
Theorem unreadable_answer_is_not_cached (w : env) (c : gmap jstring CacheEntry)
    (payload : value) :
  (forall request_uri X city,
      String_match request_uri uri_pattern = Some [X] ->
      decodeURIComponent X = Some city ->
      let key := js "current_weather_" ++ city in
      let call := HttpGet (js "weather") (VObj [(js "q", VStr city)]) in
      fresh_entry (c !! key) (clock w) = None ->
      upstream w (js "weather") (VObj [(js "q", VStr city)]) = Return payload ->
      unreadable payload ->
      read_resource request_uri w c = (Throw TypeError, c, [CacheGet key; call]))
  /\ (forall args city days_arg,
        isValidForecastArgs args = true ->
        get args (js "city") = Some city ->
        get args (js "days") = Some days_arg ->
        let days := effective_days days_arg in
        let key := forecast_key city days in
        let call := HttpGet (js "forecast") (forecast_params city days) in
        fresh_entry (c !! key) (clock w) = None ->
        upstream w (js "forecast") (forecast_params city days) = Return payload ->
        nullish payload = true ->
        call_tool (js "get_forecast") args w c = (Throw TypeError, c, [CacheGet key; call])).
Proof.
  split.
  - intros request_uri X city Hm Hd key call Hmiss Hup Hbad.
    rewrite (read_resource_city _ _ _ w c Hm Hd). cbn zeta. fold key. rewrite Hmiss.
    rewrite fetch_current_cases, Hup.
    apply (snapshot_None payload (clock_later w)) in Hbad. now rewrite Hbad.
  - intros args city days_arg Hv Hc Hd days key call Hmiss Hup Hbad.
    rewrite (call_tool_valid _ _ _ w c Hv Hc Hd). cbn zeta. fold days key. rewrite Hmiss.
    rewrite fetch_forecast_cases, Hup.
    apply (get_None payload (js "list")) in Hbad. now rewrite Hbad.
Qed.

(** The upstream answers [{ main: {...} }] without [weather]: a TypeError,
    and an empty cache. *)
Lemma unreadable_answer_is_not_cached_witness :
  let payload := VObj [(js "main", VObj [(js "temp", VNum (num 15))])] in
  let w := world 0 (Return payload) in
  unreadable payload
  /\ read_resource (js "weather://Paris/current") w ∅
     = (Throw TypeError, ∅,
        [CacheGet (js "current_weather_Paris");
         HttpGet (js "weather") (VObj [(js "q", VStr (js "Paris"))])]).
Proof.
  intros payload w.
  assert (Hbad : unreadable payload) by (right; right; left; reflexivity).
  split; [exact Hbad|].
  exact (proj1 (unreadable_answer_is_not_cached w ∅ payload)
           (js "weather://Paris/current") (js "Paris") (js "Paris")
           eq_refl eq_refl eq_refl eq_refl Hbad).
Defined.

(** X10: an error of the upstream call that is not an axios error is
    thrown on by both handlers as it is: the read handler does not wrap it
    into an internal error, the tool handler does not turn it into an
    error-flagged response, and the cache is left as it was. *)
Theorem other_errors_are_rethrown (w : env) (c : gmap jstring CacheEntry) (e : exn) :
  (forall resp msg, e <> AxiosError resp msg) ->
  (forall request_uri X city,
      String_match request_uri uri_pattern = Some [X] ->
      decodeURIComponent X = Some city ->
      let key := js "current_weather_" ++ city in
      fresh_entry (c !! key) (clock w) = None ->
      upstream w (js "weather") (VObj [(js "q", VStr city)]) = Throw e ->
      read_resource request_uri w c
      = (Throw e, c, [CacheGet key; HttpGet (js "weather") (VObj [(js "q", VStr city)])]))
  /\ (forall args city days_arg,
        isValidForecastArgs args = true ->
        get args (js "city") = Some city ->
        get args (js "days") = Some days_arg ->
        let days := effective_days days_arg in
        let key := forecast_key city days in
        fresh_entry (c !! key) (clock w) = None ->
        upstream w (js "forecast") (forecast_params city days) = Throw e ->
        call_tool (js "get_forecast") args w c
        = (Throw e, c, [CacheGet key; HttpGet (js "forecast") (forecast_params city days)])).
Proof.
  intros Hother. split.
  - intros request_uri X city Hm Hd key Hmiss Hup.
    rewrite (read_resource_city _ _ _ w c Hm Hd). cbn zeta. fold key. rewrite Hmiss.
    rewrite fetch_current_cases, Hup.
    destruct e as [| resp msg | | |]; try reflexivity. now elim (Hother resp msg).
  - intros args city days_arg Hv Hc Hd days key Hmiss Hup.
    rewrite (call_tool_valid _ _ _ w c Hv Hc Hd). cbn zeta. fold days key. rewrite Hmiss.
    rewrite fetch_forecast_cases, Hup.
    destruct e as [| resp msg | | |]; try reflexivity. now elim (Hother resp msg).
Qed.

(** The call throws something that is not an axios error: the tool call
    throws it too. *)
Lemma other_errors_are_rethrown_witness :
  let e := OtherError (js "socket hang up") in
  let w := world 0 (Throw e) in
  call_tool (js "get_forecast") (VObj [(js "city", VStr (js "London"))]) w ∅
  = (Throw e, ∅,
     [CacheGet (js "forecast_London_3");
      HttpGet (js "forecast") (VObj [(js "q", VStr (js "London")); (js "cnt", VNum (num 24))])]).
Proof.
  intros e w.
  assert (Hother : forall resp msg, e <> AxiosError resp msg) by discriminate.
  exact (proj2 (other_errors_are_rethrown w ∅ e Hother)
           (VObj [(js "city", VStr (js "London"))]) (VStr (js "London")) VUndefined
           eq_refl eq_refl eq_refl eq_refl eq_refl).
Defined.

(** X11: a successful forecast answer without a [list] is cached all the
    same: the tool call returns a response whose text is [undefined],
    flagged as no error, and stores [undefined] under the key; the calls of
    the next five minutes get that response from the cache and do not ask
    the upstream again. *)
Theorem missing_list_is_cached (args city days_arg : value) (w w2 : env)
    (c : gmap jstring CacheEntry) (payload : value) :
  isValidForecastArgs args = true ->
  get args (js "city") = Some city ->
  get args (js "days") = Some days_arg ->
  let days := effective_days days_arg in
  let key := forecast_key city days in
  let call := HttpGet (js "forecast") (forecast_params city days) in
  let c1 := <[key := {| data := VUndefined; timestamp := clock w |}]> c in
  fresh_entry (c !! key) (clock w) = None ->
  upstream w (js "forecast") (forecast_params city days) = Return payload ->
  get payload (js "list") = Some VUndefined ->
  clock w2 - clock w < cacheDuration ->
  call_tool (js "get_forecast") args w c
  = (Return {| content_text := None; isError := false |}, c1, [CacheGet key; call; CacheSet key])
  /\ call_tool (js "get_forecast") args w2 c1
     = (Return {| content_text := None; isError := false |}, c1, [CacheGet key]).
Proof.
  intros Hv Hc Hd days key call c1 Hmiss Hup Hlist Hlt. split.
  - rewrite (call_tool_valid _ _ _ w c Hv Hc Hd). cbn zeta. fold days key. rewrite Hmiss.
    now rewrite fetch_forecast_cases, Hup, Hlist.
  - rewrite (call_tool_valid _ _ _ w2 c1 Hv Hc Hd). cbn zeta. fold days key.
    assert (Hhit : fresh_entry (c1 !! key) (clock w2)
                   = Some {| data := VUndefined; timestamp := clock w |}).
    { apply fresh_entry_Some. split; [apply lookup_insert_eq | exact Hlt]. }
    now rewrite Hhit.
Qed.

(** The upstream answers [{ cod: "200" }]: the response has no text, now
    and a minute later. *)
Lemma missing_list_is_cached_witness :
  let args := VObj [(js "city", VStr (js "London"))] in
  let payload := VObj [(js "cod", VStr (js "200"))] in
  let w := world 0 (Return payload) in
  let w2 := world 60000 (Return sample_forecast) in
  let c1 := <[js "forecast_London_3" := {| data := VUndefined; timestamp := 0 |}]> ∅ in
  get payload (js "list") = Some VUndefined
  /\ call_tool (js "get_forecast") args w ∅
     = (Return {| content_text := None; isError := false |}, c1,
        [CacheGet (js "forecast_London_3");
         HttpGet (js "forecast") (VObj [(js "q", VStr (js "London")); (js "cnt", VNum (num 24))]);
         CacheSet (js "forecast_London_3")])
  /\ call_tool (js "get_forecast") args w2 c1
     = (Return {| content_text := None; isError := false |}, c1,
        [CacheGet (js "forecast_London_3")]).
Proof.
  intros args payload w w2 c1. split; [reflexivity|].
  exact (missing_list_is_cached args (VStr (js "London")) VUndefined w w2 ∅ payload
           eq_refl eq_refl eq_refl eq_refl eq_refl eq_refl eq_refl).
Defined.

(** X12: a tool response is flagged as an error exactly when the upstream
    call of the request failed with an axios error.  The cache is then what
    it was before the call, and the response carries the text
    [Weather API error: ] followed by the text of the detail of that
    failure: the [message] of the body of the error response when the body
    has one, the message of the axios error when there was no response or
    the body has no [message]. *)
Theorem error_flag_means_upstream_failure (name : jstring) (args : value) (w : env)
    (c c' : gmap jstring CacheEntry) (r : ToolResult) (t : list event) :
  call_tool name args w c = (Return r, c', t) ->
  (isError r = true <->
   exists url params resp msg,
     In (HttpGet url params) t /\ upstream w url params = Throw (AxiosError resp msg))
  /\ (isError r = true ->
      c' = c
      /\ exists url params resp msg detail text,
           In (HttpGet url params) t
           /\ upstream w url params = Throw (AxiosError resp msg)
           /\ reported_detail msg resp detail
           /\ ToString detail = Some text
           /\ content_text r = Some (js "Weather API error: " ++ text)).
Proof.
  intros H.
  destruct (jstring_eqb name (js "get_forecast") && isValidForecastArgs args) eqn:Hok.
  2: { destruct (call_tool_rejected name args w c Hok) as [e He]. congruence. }
  apply andb_true_iff in Hok as [Hn Hv]. apply jstring_eqb_eq in Hn as ->.
  pose proof Hv as Hv'. apply isValidForecastArgs_spec in Hv' as (_ & (city & Hc) & Hdays).
  assert (exists days_arg, get args (js "days") = Some days_arg) as [days_arg Hd]
    by (destruct Hdays as [Hu | [n Hn]]; eauto).
  rewrite (call_tool_valid _ _ _ w c Hv Hc Hd) in H. cbn zeta in H.
  set (days := effective_days days_arg) in *.
  set (key := forecast_key (VStr city) days) in *.
  destruct (fresh_entry (c !! key) (clock w)) as [hit|].
  { injection H as <- <- <-. cbn. split; [split; [discriminate|] | discriminate].
    intros (url & params & resp & msg & [[=]|[]] & _). }
  rewrite fetch_forecast_cases in H.
  destruct (upstream w (js "forecast") (forecast_params (VStr city) days))
    as [payload|e] eqn:Hup.
  - destruct (get payload (js "list")) as [list|]; [|discriminate].
    injection H as <- <- <-. cbn. split; [split; [discriminate|] | discriminate].
    intros (url & params & resp & msg & [[=]|[[= <- <-]|[[=]|[]]]] & Hfail).
    change (upstream w (js "forecast") (forecast_params (VStr city) days)
            = Throw (AxiosError resp msg)) in Hfail.
    congruence.
  - destruct e as [| resp msg | | |]; try discriminate.
    destruct (error_text resp msg) as [text|] eqn:Htext; [|discriminate].
    injection H as <- <- <-. cbn [isError content_text].
    apply error_text_Some in Htext as (detail & rest & Hdetail & Hrest & ->).
    assert (Hin : In (HttpGet (js "forecast") (forecast_params (VStr city) days))
                    [CacheGet key; HttpGet (js "forecast") (forecast_params (VStr city) days)])
      by (right; left; reflexivity).
    split; [split; [|reflexivity] | intros _; split; [reflexivity|]].
    + intros _. exists (js "forecast"), (forecast_params (VStr city) days), resp, msg. auto.
    + exists (js "forecast"), (forecast_params (VStr city) days), resp, msg, detail, rest.
      auto.
Qed.

(** The upstream refuses the connection: the response is flagged, nothing
    is cached, and the text ends with the message of the axios error. *)
Lemma error_flag_means_upstream_failure_witness :
  let w := world 0 (Throw (AxiosError None (js "connect ECONNREFUSED"))) in
  let args := VObj [(js "city", VStr (js "London"))] in
  exists r,
    result_of (call_tool (js "get_forecast") args w ∅) = Return r
    /\ isError r = true
    /\ cache_after (call_tool (js "get_forecast") args w ∅) = ∅
    /\ content_text r = Some (js "Weather API error: connect ECONNREFUSED").
Proof.
  intros w args.
  set (r := {| content_text := Some (js "Weather API error: connect ECONNREFUSED");
               isError := true |}).
  assert (Hrun : call_tool (js "get_forecast") args w ∅
                 = (Return r, cache_after (call_tool (js "get_forecast") args w ∅),
                    trace_of (call_tool (js "get_forecast") args w ∅)))
    by (vm_compute; reflexivity).
  destruct (error_flag_means_upstream_failure _ _ _ _ _ _ _ Hrun) as [_ Hflag].
  destruct (Hflag eq_refl) as [Hc _].
  exists r. split; [vm_compute; reflexivity|]. split; [reflexivity|]. split; [exact Hc | reflexivity].
Defined.

(** X13: the tools the list-tools handler advertises are the tools the
    call-tool handler knows: a call is refused as an unknown tool, before
    anything else is done, exactly when its name is not the name of an
    advertised tool.  The listing itself reads and writes nothing. *)
Theorem advertised_tools_are_known (w w' : env) (c c' c0 : gmap jstring CacheEntry)
    (tools : list Tool) (t : list event) (name : jstring) (args : value) :
  list_tools w c = (Return tools, c', t) ->
  (c' = c /\ t = [])
  /\ ((forall tool, In tool tools -> tool_name tool <> name) <->
      call_tool name args w' c0
      = (Throw (McpError MethodNotFound (js "Unknown tool: " ++ name)), c0, [])).
Proof.
  intros [= <- <- <-]. split; [auto|]. split.
  - intros Hnot. unfold call_tool.
    destruct (jstring_eqb name (js "get_forecast")) eqn:Hn; [|reflexivity].
    apply jstring_eqb_eq in Hn. elim (Hnot _ (or_introl eq_refl)). now symmetry.
  - intros Hcall tool [<-|[]] Heq. cbn [tool_name] in Heq. subst name.
    destruct (isValidForecastArgs args) eqn:Hv.
    + pose proof Hv as Hv'. apply isValidForecastArgs_spec in Hv' as (_ & (city & Hc) & Hdays).
      assert (exists days_arg, get args (js "days") = Some days_arg) as [days_arg Hd]
        by (destruct Hdays as [Hu | [n Hn]]; eauto).
      rewrite (call_tool_valid _ _ _ w' c0 Hv Hc Hd) in Hcall. cbn zeta in Hcall.
      destruct (fresh_entry _ _); [discriminate|].
      destruct (fetch_forecast _ _ _ _ _ _) as [[r c1] t1]. discriminate.
    + unfold call_tool in Hcall. rewrite Hv in Hcall. discriminate.
Qed.

(** The advertised name is known, another is not. *)
Lemma advertised_tools_are_known_witness :
  let w := world 0 (Return sample_forecast) in
  (exists tools, list_tools w ∅ = (Return tools, ∅, [])
                 /\ List.map tool_name tools = [js "get_forecast"])
  /\ call_tool (js "get_weather") (VObj []) w ∅
     = (Throw (McpError MethodNotFound (js "Unknown tool: get_weather")), ∅, []).
Proof.
  intros w. split; [eexists; split; reflexivity|].
  apply (advertised_tools_are_known w w ∅ ∅ ∅ _ [] (js "get_weather") (VObj []) eq_refl).
  intros tool [<-|[]]. discriminate.
Defined.

(** X14: the URIs the listing handlers advertise are URIs the read handler
    takes: putting a segment that is not empty and has no line terminator
    in the place of [{city}] in an advertised template gives a URI that
    matches the handler's pattern with that segment, and every advertised
    resource is such a URI and has a cache key. *)
Theorem advertised_uris_are_readable (w : env) (c c1 c2 : gmap jstring CacheEntry)
    (templates : list ResourceTemplate) (resources : list Resource) (t1 t2 : list event) :
  list_resource_templates w c = (Return templates, c1, t1) ->
  list_resources w c = (Return resources, c2, t2) ->
  (forall template X,
      In template templates -> X <> [] -> no_line_terminator X = true ->
      String_match (fill_template (uriTemplate template) X) uri_pattern = Some [X])
  /\ (forall r,
        In r resources ->
        exists template X,
          In template templates
          /\ resource_uri r = fill_template (uriTemplate template) X
          /\ request_key (ReadResource (resource_uri r)) = Some (js "current_weather_" ++ X)).
Proof.
  intros [= <- <- <-] [= <- <- <-]. split.
  - intros template X [<-|[]] HX Hall. cbn [uriTemplate].
    change (fill_template (js "weather://{city}/current") X)
      with (js "weather://" ++ X ++ js "/current").
    apply uri_pattern_spec. eauto.
  - intros r [<-|[]]. eexists _, (js "San Francisco").
    split; [left; reflexivity|]. split; reflexivity.
Qed.

(** The advertised template with the segment [Boston]. *)
Lemma advertised_uris_are_readable_witness :
  let template := {| uriTemplate := js "weather://{city}/current";
                     template_name := js "Current weather for a given city";
                     template_mimeType := js "application/json";
                     template_description := js "Real-time weather data for a specified city" |} in
  (list_resource_templates (world 0 (Return sample_conditions)) ∅ = (Return [template], ∅, [])
   /\ js "Boston" <> [] /\ no_line_terminator (js "Boston") = true)
  /\ String_match (fill_template (uriTemplate template) (js "Boston")) uri_pattern
     = Some [js "Boston"].
Proof.
  intros template.
  assert (Ht : list_resource_templates (world 0 (Return sample_conditions)) ∅
               = (Return [template], ∅, [])) by reflexivity.
  assert (HX : js "Boston" <> []) by discriminate.
  split; [repeat split; assumption|].
  exact (proj1 (advertised_uris_are_readable _ ∅ ∅ ∅ [template] _ [] [] Ht eq_refl)
           template (js "Boston") (or_introl eq_refl) HX eq_refl).
Defined.

Lemma hex_upper_value (d : N) : (d < 16)%N -> hex_value (hex_upper d) = Some d.
Proof.
  intros H.
  assert (Hd : (d = 0 \/ d = 1 \/ d = 2 \/ d = 3 \/ d = 4 \/ d = 5 \/ d = 6 \/ d = 7
                \/ d = 8 \/ d = 9 \/ d = 10 \/ d = 11 \/ d = 12 \/ d = 13 \/ d = 14
                \/ d = 15)%N) by lia.
  repeat (destruct Hd as [->|Hd]; [reflexivity|]). now subst.
Qed.

Lemma hex_upper_not_special (d : N) :
  (d < 16)%N -> is_line_terminator (hex_upper d) = false.
Proof.
  intros H.
  assert (Hd : (d = 0 \/ d = 1 \/ d = 2 \/ d = 3 \/ d = 4 \/ d = 5 \/ d = 6 \/ d = 7
                \/ d = 8 \/ d = 9 \/ d = 10 \/ d = 11 \/ d = 12 \/ d = 13 \/ d = 14
                \/ d = 15)%N) by lia.
  repeat (destruct Hd as [->|Hd]; [reflexivity|]). now subst.
Qed.

(** Decoding undoes the escaping of ASCII. *)
Lemma decode_escape_all (s : jstring) :
  Forall (fun c => (c < 128)%N) s -> decodeURIComponent (escape_all s) = Some s.
Proof.
  unfold decodeURIComponent. induction 1 as [|c s Hc _ IH]; [reflexivity|].
  cbn [escape_all flat_map percent_escape app]. cbn [decode_from].
  replace (percent =? percent)%N with true by reflexivity.
  assert (Hhi : (c / 16 < 16)%N) by (apply N.Div0.div_lt_upper_bound; lia).
  assert (Hlo : (c mod 16 < 16)%N) by (apply N.mod_lt; lia).
  unfold hex_octet. rewrite (hex_upper_value _ Hhi), (hex_upper_value _ Hlo).
  replace (16 * (c / 16) + c mod 16)%N with c by (apply N.div_mod; lia).
  unfold leading_ones. replace (c <? 128)%N with true by (symmetry; now apply N.ltb_lt).
  fold (escape_all s). now rewrite IH.
Qed.

Lemma escape_all_no_line_terminator (s : jstring) :
  Forall (fun c => (c < 128)%N) s -> no_line_terminator (escape_all s) = true.
Proof.
  unfold no_line_terminator. induction 1 as [|c s Hc _ IH]; [reflexivity|].
  cbn [escape_all flat_map percent_escape app forallb].
  assert (Hhi : (c / 16 < 16)%N) by (apply N.Div0.div_lt_upper_bound; lia).
  assert (Hlo : (c mod 16 < 16)%N) by (apply N.mod_lt; lia).
  rewrite (hex_upper_not_special _ Hhi), (hex_upper_not_special _ Hlo).
  exact IH.
Qed.

(** X15: every ASCII city name that is not empty can be asked for,
    whatever its characters (line feeds, slashes, percent signs): the URI
    whose segment is the name with each character written as [%XX] is taken
    by the read handler and its cache key is [current_weather_<name>]. *)
Theorem every_ascii_city_has_a_uri (city : jstring) :
  city <> [] ->
  Forall (fun c => (c < 128)%N) city ->
  request_key (ReadResource (js "weather://" ++ escape_all city ++ js "/current"))
  = Some (js "current_weather_" ++ city).
Proof.
  intros Hne Hascii. unfold request_key.
  assert (Hm : String_match (js "weather://" ++ escape_all city ++ js "/current") uri_pattern
               = Some [escape_all city]).
  { apply uri_pattern_spec. exists (escape_all city).
    repeat split; [|now apply escape_all_no_line_terminator].
    destruct city; [congruence | discriminate]. }
  rewrite Hm. cbn [nth]. now rewrite (decode_escape_all _ Hascii).
Qed.

(** The city [a], line feed, [b], refused when written raw, is reached by
    [%61%0A%62]. *)
Lemma every_ascii_city_has_a_uri_witness :
  let city := js "a" ++ [10%N] ++ js "b" in
  (city <> [] /\ Forall (fun c => (c < 128)%N) city)
  /\ request_key (ReadResource (js "weather://%61%0A%62/current"))
     = Some (js "current_weather_" ++ city).
Proof.
  intros city.
  assert (Hne : city <> []) by discriminate.
  assert (Hascii : Forall (fun c => (c < 128)%N) city) by (repeat constructor).
  split; [split; assumption|].
  exact (every_ascii_city_has_a_uri city Hne Hascii).
Defined.

(** A snapshot is an object with the five properties, the last one the
    ISO text of the clock. *)
Lemma snapshot_shape (payload : value) (t : Z) (s : value) :
  snapshot payload t = Some s ->
  keys_of s = snapshot_keys
  /\ get s (js "timestamp") = Some (VStr (Date_toISOString t))
  /\ is_Some (JSON_stringify s).
Proof.
  unfold snapshot.
  destruct (path payload _); [|discriminate].
  destruct (path payload _); [|discriminate].
  destruct (path payload _); [|discriminate].
  destruct (path payload _); [|discriminate].
  intros [= <-]. split; [reflexivity|]. split; [reflexivity|].
  unfold is_Some, JSON_stringify. eexists. reflexivity.
Qed.

(** An entry under a [current_weather_] key that was fetched holds a
    snapshot; one under a [forecast_] key holds a list. *)
Lemma fetched_resource_entry (w : env) (city : jstring) (entry : CacheEntry) :
  fetched_entry w (js "current_weather_" ++ city) entry ->
  exists payload,
    upstream w (js "weather") (VObj [(js "q", VStr city)]) = Return payload
    /\ snapshot payload (clock_later w) = Some (data entry).
Proof.
  intros [_ [(city' & payload & Hk & Hup & Hs) | (city' & days & payload & Hk & _)]].
  - apply app_inv_head in Hk. subst city'. eauto.
  - discriminate Hk.
Qed.

Lemma fetched_forecast_entry (w : env) (city : value) (days : number) (entry : CacheEntry) :
  fetched_entry w (forecast_key city days) entry ->
  exists city' days' payload,
    forecast_key city' days' = forecast_key city days
    /\ upstream w (js "forecast") (forecast_params city' days') = Return payload
    /\ get payload (js "list") = Some (data entry).
Proof.
  intros [_ [(city' & payload & Hk & _) | (city' & days' & payload & Hk & Hup & Hl)]].
  - discriminate Hk.
  - eauto 8.
Qed.

(** X16: whatever requests the server has handled since it started, a
    read-resource request that succeeds answers with the JSON text of a
    snapshot: an object with the properties [temperature], [conditions],
    [humidity], [wind_speed], [timestamp], in this order, built from a
    successful current-conditions answer of the upstream.  It never answers
    with a forecast list, and its text is never missing. *)
Theorem read_answers_with_a_snapshot (steps : list (request * env)) (request_uri : jstring)
    (w : env) (r : ResourceContents) (c' : gmap jstring CacheEntry) (t : list event) :
  read_resource request_uri w (serve steps ∅) = (Return r, c', t) ->
  uri r = request_uri
  /\ mimeType r = js "application/json"
  /\ exists s w' payload city,
       text r = JSON_stringify s
       /\ is_Some (text r)
       /\ keys_of s = snapshot_keys
       /\ (w' = w \/ exists rq, In (rq, w') steps)
       /\ upstream w' (js "weather") (VObj [(js "q", VStr city)]) = Return payload
       /\ snapshot payload (clock_later w') = Some s.
Proof.
  intros H.
  destruct (String_match request_uri uri_pattern) as [caps|] eqn:Hm;
    [|rewrite (read_resource_no_match _ _ _ Hm) in H; discriminate].
  pose proof Hm as Hm'. apply uri_pattern_spec in Hm' as (X & -> & _).
  destruct (decodeURIComponent X) as [city|] eqn:Hd;
    [|unfold read_resource in H; rewrite Hm in H; cbn [nth] in H;
      rewrite Hd in H; discriminate].
  rewrite (read_resource_city _ _ _ w _ Hm Hd) in H. cbn zeta in H.
  set (key := js "current_weather_" ++ city) in *.
  destruct (fresh_entry (serve steps ∅ !! key) (clock w)) as [hit|] eqn:Hfresh.
  - injection H as <- <- <-. split; [reflexivity|]. split; [reflexivity|].
    apply fresh_entry_Some in Hfresh as [Hin _].
    apply serve_provenance in Hin as [Hin | (rq & w' & Hin & Hf)];
      [rewrite lookup_empty in Hin; discriminate|].
    apply fetched_resource_entry in Hf as (payload & Hup & Hs).
    destruct (snapshot_shape _ _ _ Hs) as (Hkeys & _ & Htext).
    exists (data hit), w', payload, city. cbn [text json_contents]. eauto 10.
  - rewrite fetch_current_cases in H.
    destruct (upstream w (js "weather") (VObj [(js "q", VStr city)])) as [payload|e] eqn:Hup.
    2: { destruct e as [| resp msg | | |]; try discriminate.
         destruct (error_text resp msg); discriminate. }
    destruct (snapshot payload (clock_later w)) as [s|] eqn:Hs; [|discriminate].
    injection H as <- <- <-. split; [reflexivity|]. split; [reflexivity|].
    destruct (snapshot_shape _ _ _ Hs) as (Hkeys & _ & Htext).
    exists s, w, payload, city. cbn [text json_contents]. eauto 10.
Qed.

(** After a forecast of London, a read of the city [forecast_London_3]
    still answers with a snapshot. *)
Lemma read_answers_with_a_snapshot_witness :
  let steps := [(CallTool (js "get_forecast") (VObj [(js "city", VStr (js "London"))]),
                 world 0 (Return sample_forecast))] in
  let w := world 10 (Return sample_conditions) in
  exists r,
    result_of (read_resource (js "weather://Paris/current") w (serve steps ∅)) = Return r
    /\ exists s, text r = JSON_stringify s /\ keys_of s = snapshot_keys.
Proof.
  intros steps w.
  set (run := read_resource (js "weather://Paris/current") w (serve steps ∅)).
  set (r := json_contents (js "weather://Paris/current")
              (VObj [(js "temperature", VNum (num 15));
                     (js "conditions", VStr (js "light rain"));
                     (js "humidity", VNum (num 81));
                     (js "wind_speed", VNum (num 4));
                     (js "timestamp", VStr (js "1970-01-01T00:00:00.260Z"))])).
  assert (Hrun : run = (Return r, cache_after run, trace_of run)) by (vm_compute; reflexivity).
  destruct (read_answers_with_a_snapshot steps _ w r _ _ Hrun)
    as (_ & _ & s & w' & payload & city & Htext & _ & Hkeys & _).
  exists r. split; [vm_compute; reflexivity|]. exists s. split; assumption.
Defined.

(** X17: whatever requests the server has handled since it started, a tool
    call that succeeds without the error flag answers with the JSON text of
    the [list] of a successful forecast answer of the upstream, received by
    this call or by an earlier one, unchanged; it never answers with a
    snapshot of the read handler. *)
Theorem tool_answers_with_a_list (steps : list (request * env)) (args : value)
    (w : env) (r : ToolResult) (c' : gmap jstring CacheEntry) (t : list event) :
  call_tool (js "get_forecast") args w (serve steps ∅) = (Return r, c', t) ->
  isError r = false ->
  exists list w' payload city days,
    content_text r = JSON_stringify list
    /\ (w' = w \/ exists rq, In (rq, w') steps)
    /\ upstream w' (js "forecast") (forecast_params city days) = Return payload
    /\ get payload (js "list") = Some list
    /\ request_key (CallTool (js "get_forecast") args) = Some (forecast_key city days).
Proof.
  intros H Herr.
  destruct (isValidForecastArgs args) eqn:Hv.
  2: { unfold call_tool in H. rewrite Hv in H. discriminate. }
  pose proof Hv as Hv'. apply isValidForecastArgs_spec in Hv' as (_ & (city & Hc) & Hdays).
  assert (exists days_arg, get args (js "days") = Some days_arg) as [days_arg Hd]
    by (destruct Hdays as [Hu | [n Hn]]; eauto).
  assert (Hkey : request_key (CallTool (js "get_forecast") args)
                 = Some (forecast_key (VStr city) (effective_days days_arg))).
  { unfold request_key. rewrite Hv, Hc, Hd. reflexivity. }
  rewrite (call_tool_valid _ _ _ w _ Hv Hc Hd) in H. cbn zeta in H.
  set (days := effective_days days_arg) in *.
  set (key := forecast_key (VStr city) days) in *.
  destruct (fresh_entry (serve steps ∅ !! key) (clock w)) as [hit|] eqn:Hfresh.
  - injection H as <- <- <-.
    apply fresh_entry_Some in Hfresh as [Hin _].
    apply serve_provenance in Hin as [Hin | (rq & w' & Hin & Hf)];
      [rewrite lookup_empty in Hin; discriminate|].
    apply fetched_forecast_entry in Hf as (city' & days' & payload & Hk & Hup & Hl).
    exists (data hit), w', payload, city', days'. rewrite Hk. eauto 10.
  - rewrite fetch_forecast_cases in H.
    destruct (upstream w (js "forecast") (forecast_params (VStr city) days))
      as [payload|e] eqn:Hup.
    2: { destruct e as [| resp msg | | |]; try discriminate.
         destruct (error_text resp msg); [|discriminate].
         injection H as <- <- <-. discriminate Herr. }
    destruct (get payload (js "list")) as [list|] eqn:Hl; [|discriminate].
    injection H as <- <- <-.
    exists list, w, payload, (VStr city), days. eauto 10.
Qed.

(** After a read of Paris, a forecast of London answers with the list the
    upstream returned. *)
Lemma tool_answers_with_a_list_witness :
  let steps := [(ReadResource (js "weather://Paris/current"),
                 world 0 (Return sample_conditions))] in
  let w := world 10 (Return sample_forecast) in
  let args := VObj [(js "city", VStr (js "London"))] in
  exists r list,
    result_of (call_tool (js "get_forecast") args w (serve steps ∅)) = Return r
    /\ isError r = false
    /\ content_text r = JSON_stringify list
    /\ get sample_forecast (js "list") = Some list.
Proof.
  intros steps w args.
  set (run := call_tool (js "get_forecast") args w (serve steps ∅)).
  set (r := json_text (VArr [VObj [(js "dt", VNum (num 1700000000))]])).
  assert (Hrun : run = (Return r, cache_after run, trace_of run)) by (vm_compute; reflexivity).
  destruct (tool_answers_with_a_list steps args w r _ _ Hrun eq_refl)
    as (list & w' & payload & city & days & Htext & _).
  exists r, (VArr [VObj [(js "dt", VNum (num 1700000000))]]).
  split; [vm_compute; reflexivity|]. repeat split.
Defined.

(** X18: the validation looks at [city] and [days] and at nothing else: a
    property of another name, whatever its value, does not change the
    verdict on an object; and an array, a string, a number, a boolean,
    [null] and [undefined] are all refused. *)
Theorem validation_reads_city_and_days_only (k : jstring) (v : value)
    (props : list (jstring * value)) (args : value) :
  (k <> js "city" -> k <> js "days" ->
   isValidForecastArgs (VObj ((k, v) :: props)) = isValidForecastArgs (VObj props))
  /\ ((forall ps, args <> VObj ps) -> isValidForecastArgs args = false).
Proof.
  split.
  - intros Hc Hd. unfold isValidForecastArgs. cbn [typeof is_null get lookup_prop].
    assert (Hc' : jstring_eqb (js "city") k = false)
      by (apply jstring_eqb_neq; congruence).
    assert (Hd' : jstring_eqb (js "days") k = false)
      by (apply jstring_eqb_neq; congruence).
    now rewrite Hc', Hd'.
  - intros Hother. destruct (isValidForecastArgs args) eqn:Hv; [|reflexivity].
    apply isValidForecastArgs_spec in Hv as (Hs & (city & Hc) & _).
    destruct args as [| | | | | items | ps]; try contradiction.
    + discriminate Hc.
    + now elim (Hother ps).
Qed.

(** An object with a property [units] beside the city is accepted; the
    array that holds the same object is refused. *)
Lemma validation_reads_city_and_days_only_witness :
  let props := [(js "city", VStr (js "London"))] in
  isValidForecastArgs (VObj ((js "units", VStr (js "imperial")) :: props)) = true
  /\ isValidForecastArgs (VArr [VObj props]) = false.
Proof.
  intros props.
  destruct (validation_reads_city_and_days_only (js "units") (VStr (js "imperial")) props
              (VArr [VObj props])) as [Hextra Harray].
  split.
  - rewrite Hextra by discriminate. reflexivity.
  - apply Harray. discriminate.
Defined.

(** X19: a request does one of four things and nothing else: it stops
    before the cache; or it reads the cache at its key and answers from it;
    or it reads the cache, calls the upstream once and fails; or it reads
    the cache, calls the upstream once and writes the key.  So there is no
    second upstream call, no retry, and no write without a call before
    it. *)
Theorem request_trace_shapes (rq : request) (w : env) (c : gmap jstring CacheEntry) :
  trace_of (handle rq w c) = []
  \/ exists key,
       request_key rq = Some key
       /\ (trace_of (handle rq w c) = [CacheGet key]
           \/ exists url params,
                trace_of (handle rq w c) = [CacheGet key; HttpGet url params]
                \/ trace_of (handle rq w c)
                   = [CacheGet key; HttpGet url params; CacheSet key]).
Proof.
  pose proof (handle_cases rq w c) as H.
  destruct (request_key rq) as [key|]; [|left; apply H].
  right. exists key. split; [reflexivity|].
  destruct (fresh_entry (c !! key) (clock w)); [left; apply H|].
  destruct H as (url & params & [[H _] | (payload & entry & _ & _ & H & _)]);
    right; exists url, params; auto.
Qed.

(** X20: an axios failure of the upstream call whose detail has a text is
    reported by the two handlers in two ways.  The detail is the [message]
    of the body of the error response when the body has one, and the
    message of the axios error when there was no response or the body has
    no [message].  The read-resource handler throws an internal-error fault
    with the text [Weather API error: <detail>]; the tool handler returns a
    response whose content is that text, with [isError: true].  Neither
    touches the cache behind the lookup. *)
Theorem upstream_failure_reporting (w : env) (c : gmap jstring CacheEntry)
    (resp : option value) (msg : jstring) (detail : value) (text : jstring) :
  reported_detail msg resp detail ->
  ToString detail = Some text ->
  (forall request_uri X city,
      String_match request_uri uri_pattern = Some [X] ->
      decodeURIComponent X = Some city ->
      let key := js "current_weather_" ++ city in
      let call := HttpGet (js "weather") (VObj [(js "q", VStr city)]) in
      fresh_entry (c !! key) (clock w) = None ->
      upstream w (js "weather") (VObj [(js "q", VStr city)]) = Throw (AxiosError resp msg) ->
      read_resource request_uri w c
      = (Throw (McpError InternalError (js "Weather API error: " ++ text)),
         c, [CacheGet key; call]))
  /\ (forall args city days_arg,
        isValidForecastArgs args = true ->
        get args (js "city") = Some city ->
        get args (js "days") = Some days_arg ->
        let days := effective_days days_arg in
        let key := forecast_key city days in
        let call := HttpGet (js "forecast") (forecast_params city days) in
        fresh_entry (c !! key) (clock w) = None ->
        upstream w (js "forecast") (forecast_params city days) = Throw (AxiosError resp msg) ->
        call_tool (js "get_forecast") args w c
        = (Return {| content_text := Some (js "Weather API error: " ++ text);
                     isError := true |},
           c, [CacheGet key; call])).
Proof.
  intros Hdetail Htext.
  assert (Herr : error_text resp msg = Some (js "Weather API error: " ++ text))
    by (apply error_text_Some; eauto).
  split.
  - intros request_uri X city Hm Hd key call Hmiss Hup.
    rewrite (read_resource_city _ _ _ w c Hm Hd). cbn zeta. fold key. rewrite Hmiss.
    now rewrite fetch_current_cases, Hup, Herr.
  - intros args city days_arg Hv Hc Hd days key call Hmiss Hup.
    rewrite (call_tool_valid _ _ _ w c Hv Hc Hd). cbn zeta. fold days key. rewrite Hmiss.
    now rewrite fetch_forecast_cases, Hup, Herr.
Qed.

(** The upstream answers 404 with [{ message: "city not found" }]: a fault
    for the resource, an error-flagged text for the tool. *)
Lemma upstream_failure_reporting_witness :
  let failure := AxiosError (Some (VObj [(js "cod", VStr (js "404"));
                                         (js "message", VStr (js "city not found"))]))
                   (js "Request failed with status code 404") in
  let w := world 0 (Throw failure) in
  read_resource (js "weather://Nowhere/current") w ∅
  = (Throw (McpError InternalError (js "Weather API error: city not found")), ∅,
     [CacheGet (js "current_weather_Nowhere");
      HttpGet (js "weather") (VObj [(js "q", VStr (js "Nowhere"))])])
  /\ call_tool (js "get_forecast") (VObj [(js "city", VStr (js "Nowhere"))]) w ∅
     = (Return {| content_text := Some (js "Weather API error: city not found");
                  isError := true |}, ∅,
        [CacheGet (js "forecast_Nowhere_3");
         HttpGet (js "forecast")
           (VObj [(js "q", VStr (js "Nowhere")); (js "cnt", VNum (num 24))])]).
Proof.
  intros failure w.
  set (body := VObj [(js "cod", VStr (js "404"));
                     (js "message", VStr (js "city not found"))]).
  destruct (upstream_failure_reporting w ∅ (Some body)
              (js "Request failed with status code 404")
              (VStr (js "city not found")) (js "city not found")
              (upstream_message _ body (VStr (js "city not found")) eq_refl eq_refl)
              eq_refl) as [Hread Htool].
  split.
  - exact (Hread (js "weather://Nowhere/current") (js "Nowhere") (js "Nowhere")
             eq_refl eq_refl eq_refl eq_refl).
  - exact (Htool (VObj [(js "city", VStr (js "Nowhere"))]) (VStr (js "Nowhere")) VUndefined
             eq_refl eq_refl eq_refl eq_refl eq_refl).
Defined.
